(** * ESG scoring and incentive engine of [esg_incentive_tracker.py]

    A shallow embedding of the decision logic of the module: the three
    metric trackers, the ESG scoring engine, the incentive catalogue with
    its eligibility and value calculators, and the integration engine that
    ties them together.

    Modelling conventions.
    - Python [float] and [Decimal] values are exact rationals ([Q]); results
      are compared with [==].  Concrete inputs used below are chosen so that
      the binary64 computation of the source is exact on them as well.
      The one float operation that decides a monetary value, the quotient
      [percentage / 100] that is printed and read back as a [Decimal], is
      computed in binary64 ([float_truediv], [Decimal_str]).  [Decimal]
      arithmetic is exact: it stays within the 28 significant digits of
      the default decimal context.
    - Numbers are finite, and a key that is present in [project_data]
      holds a value of its documented type: a key stored as [None], or an
      integer too large to convert to a float, is outside the model.
    - Python [str] is [string]; [str.lower] acts on the ASCII letters.
    - A raised exception is an explicit [Raise] result; tracker state is
      threaded through a state-and-error monad, so that the mutations done
      before an exception are kept, as in the source.
    - [datetime.now()] and [date.today()] are read from the environment:
      they are the [now] and [today] arguments.
    - The loosely keyed [project_data] dict is a record of optional fields;
      [None] is the absent key. *)

From Stdlib Require Import String Ascii List ZArith QArith Qminmax Bool Lia Lqa.
From stdpp Require Import base option strings gmap.
Import ListNotations.

Local Open Scope string_scope.
Local Open Scope Q_scope.

(** ** Python primitives *)

(** [str.lower] on the ASCII range. *)
Definition lower_ascii (c : ascii) : ascii :=
  let n := nat_of_ascii c in
  if ((65 <=? n)%nat && (n <=? 90)%nat)%bool then ascii_of_nat (n + 32) else c.

Fixpoint lower (s : string) : string :=
  match s with
  | EmptyString => EmptyString
  | String c s' => String (lower_ascii c) (lower s')
  end.

(** [needle in hay] on strings. *)
Fixpoint str_in (needle hay : string) : bool :=
  if String.prefix needle hay then true
  else match hay with
       | EmptyString => false
       | String _ hay' => str_in needle hay'
       end.

(** [s.replace(c, r)] for a one-character pattern [c]. *)
Fixpoint replace_char (c : ascii) (r : string) (s : string) : string :=
  match s with
  | EmptyString => EmptyString
  | String a s' =>
      if Ascii.eqb a c then r ++ replace_char c r s'
      else String a (replace_char c r s')
  end.

(** Truthiness of a number and of an optional number. *)
Definition truthy (q : Q) : bool := negb (Qeq_bool q 0).

Definition truthy_opt (o : option Q) : bool :=
  match o with
  | Some q => truthy q
  | None => false
  end.

Definition Qltb (a b : Q) : bool := negb (Qle_bool b a).

(** The builtin [min(a, b)] and [max(a, b)]: the first argument is kept
    unless the second one is strictly better. *)
Definition py_min (a b : Q) : Q := if Qltb b a then b else a.
Definition py_max (a b : Q) : Q := if Qltb a b then b else a.

(** ** Binary64 numbers and their printed form

    A float is modelled by the rational it denotes.  [b64] rounds a
    rational to the nearest binary64 number, ties to even, subnormals
    included; magnitudes beyond the binary64 range are outside the model. *)

Definition pow2Q (k : Z) : Q :=
  if (0 <=? k)%Z then inject_Z (2 ^ k) else / inject_Z (2 ^ (- k)).

Definition pow10Q (k : Z) : Q :=
  if (0 <=? k)%Z then inject_Z (10 ^ k) else / inject_Z (10 ^ (- k)).

(** [a / b] rounded to the nearest integer, ties to even, for [0 <= a]
    and [0 < b]. *)
Definition round_half_even (a b : Z) : Z :=
  let q := (a / b)%Z in
  let r := (a mod b)%Z in
  match (2 * r ?= b)%Z with
  | Lt => q
  | Gt => (q + 1)%Z
  | Eq => if Z.even q then q else (q + 1)%Z
  end.

(** The fraction [a / b * base ^ k]. *)
Definition scaled (base a b k : Z) : Z * Z :=
  if (0 <=? k)%Z then ((a * base ^ k)%Z, b) else (a, (b * base ^ (- k))%Z).

(** The binary64 number nearest to [a / b], for positive [a] and [b]:
    [e] is the binary exponent of [a / b] and [u] the exponent of the unit
    in the last place of its 53-bit significand. *)
Definition b64_pos (a b : Z) : Q :=
  let e0 := (Z.log2 a - Z.log2 b)%Z in
  let '(x, y) := scaled 2 a b (- e0) in
  let e := if (x <? y)%Z then (e0 - 1)%Z else e0 in
  let u := Z.max (e - 52) (-1074) in
  let '(x', y') := scaled 2 a b (- u) in
  inject_Z (round_half_even x' y') * pow2Q u.

Definition b64 (q : Q) : Q :=
  match Qnum q with
  | Z0 => 0
  | Zpos n => b64_pos (Zpos n) (Zpos (Qden q))
  | Zneg n => - b64_pos (Zpos n) (Zpos (Qden q))
  end.

(** Float division [a / b] for [b] other than zero: the exact quotient of
    the two floats, correctly rounded. *)
Definition float_truediv (a b : Q) : Q := b64 (b64 a / b64 b).

(** The least [k'] from [k] on with [a / b < 10 ^ k']. *)
Fixpoint dec_exp_from (fuel : nat) (a b k : Z) : Z :=
  match fuel with
  | O => k
  | S fuel' =>
      let '(x, y) := scaled 10 a b (- k) in
      if (x <? y)%Z then k else dec_exp_from fuel' a b (k + 1)
  end.

(** The decimal exponent [k] of [a / b]: [10 ^ (k - 1) <= a / b < 10 ^ k]. *)
Definition dec_exp (a b : Z) : Z :=
  let e0 := (Z.log2 a - Z.log2 b)%Z in
  dec_exp_from 8 a b (((e0 - 1) * 30103) / 100000 - 1).

(** [repr] of a positive float [f = a / b] with decimal exponent [k]: the
    decimal with the fewest significant digits, from [n] digits on, that
    reads back as [f], and among those the one nearest to [f]. *)
Fixpoint shortest (fuel : nat) (f : Q) (a b k n : Z) : Q :=
  match fuel with
  | O => f
  | S fuel' =>
      let t := (n - k)%Z in
      let '(x, y) := scaled 10 a b t in
      let lo := (x / y)%Z in
      let r := (x mod y)%Z in
      if (r =? 0)%Z then f
      else
        let c_lo := inject_Z lo * pow10Q (- t) in
        let c_hi := inject_Z (lo + 1) * pow10Q (- t) in
        let ok_lo := Qeq_bool (b64 c_lo) f in
        let ok_hi := Qeq_bool (b64 c_hi) f in
        if ok_lo && ok_hi then
          match (2 * r ?= y)%Z with
          | Lt => c_lo
          | Gt => c_hi
          | Eq => if Z.even lo then c_lo else c_hi
          end
        else if ok_lo then c_lo
        else if ok_hi then c_hi
        else shortest fuel' f a b k (n + 1)
  end.

(** [Decimal(str(f))] for a float [f]: the value of its shortest printed
    form. *)
Definition Decimal_str (f : Q) : Q :=
  match Qnum f with
  | Z0 => 0
  | Zpos n =>
      shortest 17 f (Zpos n) (Zpos (Qden f))
        (dec_exp (Zpos n) (Zpos (Qden f))) 1
  | Zneg n =>
      - shortest 17 (- f) (Zpos n) (Zpos (Qden f))
          (dec_exp (Zpos n) (Zpos (Qden f))) 1
  end.


(** [datetime.date], ordered as the triple (year, month, day). *)
Record date := mkdate { year : Z; month : Z; day : Z }.

Definition date_gtb (a b : date) : bool :=
  ((year b <? year a)%Z
   || ((year a =? year b)%Z
       && ((month b <? month a)%Z
           || ((month a =? month b)%Z && (day b <? day a)%Z))))%bool.

(** Exceptions the modelled code can raise. *)
Inductive PyError := ZeroDivisionError | AttributeError.

Inductive result (A : Type) :=
| Ok (a : A)
| Raise (e : PyError).
Arguments Ok {A} a.
Arguments Raise {A} e.

(** True division [a / b]. *)
Definition py_div (a b : Q) : result Q :=
  if Qeq_bool b 0 then Raise ZeroDivisionError else Ok (a / b).

(** ** Data model *)

Inductive ESGCategory := ENVIRONMENTAL | SOCIAL | GOVERNANCE.

Inductive IncentiveType :=
| FEDERAL_TAX_CREDIT | STATE_TAX_CREDIT | LOCAL_REBATE | UTILITY_REBATE
| GRANT | LOW_INTEREST_LOAN | PACE_FINANCING.

Definition IncentiveType_value (t : IncentiveType) : string :=
  match t with
  | FEDERAL_TAX_CREDIT => "federal_tax_credit"
  | STATE_TAX_CREDIT => "state_tax_credit"
  | LOCAL_REBATE => "local_rebate"
  | UTILITY_REBATE => "utility_rebate"
  | GRANT => "grant"
  | LOW_INTEREST_LOAN => "low_interest_loan"
  | PACE_FINANCING => "pace_financing"
  end.

Module ESGMetric.
Record t := mk {
  category : ESGCategory;
  metric_name : string;
  value : Q;
  unit : string;
  timestamp : Z;
  project_id : option string;
  verification_method : string;
  third_party_verified : bool;
  carbon_offset_tons : option Q }.
End ESGMetric.

Module IncentiveOpportunity.
Record t := mk {
  incentive_id : string;
  name : string;
  type : IncentiveType;
  amount : Q;
  percentage : option Q;
  max_amount : option Q;
  state : string;
  locality : option string;
  utility_provider : option string;
  eligibility_criteria : list string;
  application_deadline : option date;
  project_start_deadline : option date;
  project_completion_deadline : option date;
  requires_pre_approval : bool;
  stacking_allowed : bool;
  clawback_provisions : list string }.

Definition set_project_start_deadline (d : option date) (i : t) : t :=
  mk (incentive_id i) (name i) (type i) (amount i) (percentage i)
     (max_amount i) (state i) (locality i) (utility_provider i)
     (eligibility_criteria i) (application_deadline i) d
     (project_completion_deadline i) (requires_pre_approval i)
     (stacking_allowed i) (clawback_provisions i).

Definition set_percentage (p : option Q) (i : t) : t :=
  mk (incentive_id i) (name i) (type i) (amount i) p
     (max_amount i) (state i) (locality i) (utility_provider i)
     (eligibility_criteria i) (application_deadline i)
     (project_start_deadline i) (project_completion_deadline i)
     (requires_pre_approval i) (stacking_allowed i)
     (clawback_provisions i).

Definition set_eligibility_criteria (cs : list string) (i : t) : t :=
  mk (incentive_id i) (name i) (type i) (amount i) (percentage i)
     (max_amount i) (state i) (locality i) (utility_provider i)
     cs (application_deadline i) (project_start_deadline i)
     (project_completion_deadline i) (requires_pre_approval i)
     (stacking_allowed i) (clawback_provisions i).
End IncentiveOpportunity.

Module ESGScore.
Record t := mk {
  environmental_score : Q;
  social_score : Q;
  governance_score : Q;
  overall_score : Q;
  peer_percentile : Q;
  timestamp : Z;
  certification_level : string }.
End ESGScore.

(** The keys of [project_data] read by the engine. *)
Record ProjectData := {
  pd_project_id : option string;
  pd_project_type : option string;
  pd_building_type : option string;
  pd_state : option string;
  pd_city : option string;
  pd_utility_provider : option string;
  pd_project_cost : option Q;
  pd_project_size : option Q;
  pd_system_capacity_kw : option Q;
  pd_annual_production_kwh : option Q;
  pd_square_footage : option Q;
  pd_baseline_energy_usage : option Q;
  pd_projected_energy_usage : option Q;
  pd_total_workers : option Z;
  pd_local_workers : option Z;
  pd_total_hours : option Q;
  pd_incidents : option Z;
  pd_near_misses : option Z }.

(** [d.get(key, dflt)] *)
Definition get {A} (o : option A) (dflt : A) : A :=
  match o with
  | Some a => a
  | None => dflt
  end.

(** ** A state-and-error monad for the stateful methods *)

Definition M (S A : Type) : Type := S -> result A * S.

Definition ret {S A} (a : A) : M S A := fun s => (Ok a, s).

Definition raise {S A} (e : PyError) : M S A := fun s => (Raise e, s).

Definition bind {S A B} (m : M S A) (k : A -> M S B) : M S B :=
  fun s =>
    match m s with
    | (Ok a, s') => k a s'
    | (Raise e, s') => (Raise e, s')
    end.

Definition lift_result {S A} (r : result A) : M S A := fun s => (r, s).

Definition modify {S} (f : S -> S) : M S Datatypes.unit := fun s => (Ok tt, f s).

Definition read {S} : M S S := fun s => (Ok s, s).

(** Run a method of a component [T] stored inside the object [S]. *)
Definition zoom {S T A} (proj : S -> T) (upd : T -> S -> S) (m : M T A) : M S A :=
  fun s => let (r, t') := m (proj s) in (r, upd t' s).

Notation "x <- c1 ;; c2" := (bind c1 (fun x => c2))
  (at level 100, c1 at next level, right associativity).
Notation "c1 ;;; c2" := (bind c1 (fun _ => c2))
  (at level 100, right associativity).

(** ** The metric trackers *)

Record CarbonCredit := {
  tons_offset : Q;
  market_value_per_ton : Q;
  total_value : Q;
  retirement_date : option date }.

Module EnvironmentalTracker.
Record t := mk {
  metrics : list ESGMetric.t;
  carbon_credits : gmap (option string) CarbonCredit }.

Definition init : t := mk [] ∅.

Definition append (m : ESGMetric.t) : M t Datatypes.unit :=
  modify (fun self => mk (metrics self ++ [m]) (carbon_credits self)).

Definition track_energy_efficiency (now : Z) (project_id : option string)
    (building_type : string) (square_footage energy_usage_baseline
     energy_usage_actual : Q) : M t ESGMetric.t :=
  ratio <- lift_result
             (py_div (energy_usage_baseline - energy_usage_actual)
                     energy_usage_baseline) ;;
  let efficiency_improvement := ratio * 100 in
  let carbon_offset :=
    (energy_usage_baseline - energy_usage_actual) * (7 # 10000)
    * square_footage / 1000 in
  let metric :=
    ESGMetric.mk ENVIRONMENTAL "energy_efficiency_improvement"
      efficiency_improvement "percentage" now project_id
      "energy_modeling_software" true (Some carbon_offset) in
  append metric ;;;
  (if Qltb 0 carbon_offset
   then modify (fun self =>
          mk (metrics self)
             (<[project_id :=
                  {| tons_offset := carbon_offset;
                     market_value_per_ton := 50;
                     total_value := carbon_offset * 50;
                     retirement_date := None |}]> (carbon_credits self)))
   else ret tt) ;;;
  ret metric.

Definition track_renewable_energy (now : Z) (project_id : option string)
    (system_type : string) (capacity_kw annual_production_kwh : Q)
    : M t ESGMetric.t :=
  let carbon_offset := annual_production_kwh * (7 # 10000) in
  let metric :=
    ESGMetric.mk ENVIRONMENTAL ("renewable_energy_" ++ system_type)
      capacity_kw "kW_capacity" now project_id
      "utility_interconnection_agreement" true (Some carbon_offset) in
  append metric ;;;
  ret metric.

Definition track_water_efficiency (now : Z) (project_id : option string)
    (baseline_usage improved_usage : Q) : M t ESGMetric.t :=
  let water_savings := baseline_usage - improved_usage in
  ratio <- lift_result (py_div water_savings baseline_usage) ;;
  let savings_percentage := ratio * 100 in
  let metric :=
    ESGMetric.mk ENVIRONMENTAL "water_efficiency_improvement"
      savings_percentage "percentage" now project_id
      "water_meter_readings" false None in
  append metric ;;;
  ret metric.

Definition track_waste_diversion (now : Z) (project_id : option string)
    (total_waste diverted_waste : Q) : M t ESGMetric.t :=
  ratio <- lift_result (py_div diverted_waste total_waste) ;;
  let diversion_rate := ratio * 100 in
  let metric :=
    ESGMetric.mk ENVIRONMENTAL "waste_diversion_rate"
      diversion_rate "percentage" now project_id
      "waste_management_receipts" true None in
  append metric ;;;
  ret metric.
End EnvironmentalTracker.

Module SocialImpactTracker.
Record t := mk { metrics : list ESGMetric.t }.

Definition init : t := mk [].

Definition extend (ms : list ESGMetric.t) : M t Datatypes.unit :=
  modify (fun self => mk (metrics self ++ ms)).

Definition social_metric (now : Z) (project_id : option string)
    (metric_name : string) (value : Q) (unit verification : string)
    : ESGMetric.t :=
  ESGMetric.mk SOCIAL metric_name value unit now project_id verification
    false None.

Definition track_local_hiring (now : Z) (project_id : option string)
    (total_workers local_workers : Z) : M t ESGMetric.t :=
  ratio <- lift_result
             (py_div (inject_Z local_workers) (inject_Z total_workers)) ;;
  let local_hire_rate := ratio * 100 in
  let metric :=
    social_metric now project_id "local_hire_rate" local_hire_rate
      "percentage" "payroll_address_verification" in
  extend [metric] ;;;
  ret metric.

Definition track_diversity_hiring (now : Z) (project_id : option string)
    (total_workers minority_workers women_workers veteran_workers : Z)
    : M t (list ESGMetric.t) :=
  r1 <- lift_result
          (py_div (inject_Z minority_workers) (inject_Z total_workers)) ;;
  let m1 := social_metric now project_id "minority_hire_rate" (r1 * 100)
              "percentage" "self_identification_forms" in
  r2 <- lift_result
          (py_div (inject_Z women_workers) (inject_Z total_workers)) ;;
  let m2 := social_metric now project_id "women_hire_rate" (r2 * 100)
              "percentage" "self_identification_forms" in
  r3 <- lift_result
          (py_div (inject_Z veteran_workers) (inject_Z total_workers)) ;;
  let m3 := social_metric now project_id "veteran_hire_rate" (r3 * 100)
              "percentage" "dd214_verification" in
  let metrics := [m1; m2; m3] in
  extend metrics ;;;
  ret metrics.

Definition track_apprenticeship_programs (now : Z)
    (project_id : option string) (total_hours apprentice_hours : Q)
    : M t ESGMetric.t :=
  ratio <- lift_result (py_div apprentice_hours total_hours) ;;
  let metric :=
    social_metric now project_id "apprenticeship_rate" (ratio * 100)
      "percentage" "union_training_records" in
  extend [metric] ;;;
  ret metric.

Definition track_safety_metrics (now : Z) (project_id : option string)
    (total_hours : Q) (incidents near_misses : Z)
    : M t (list ESGMetric.t) :=
  r1 <- lift_result (py_div (inject_Z incidents) total_hours) ;;
  let m1 := social_metric now project_id "osha_incident_rate"
              (r1 * 200000) "incidents_per_200k_hours" "osha_logs" in
  r2 <- lift_result (py_div (inject_Z near_misses) total_hours) ;;
  let m2 := social_metric now project_id "near_miss_rate"
              (r2 * 200000) "near_misses_per_200k_hours"
              "safety_reporting_system" in
  let metrics := [m1; m2] in
  extend metrics ;;;
  ret metrics.
End SocialImpactTracker.

Module GovernanceTracker.
Record t := mk { metrics : list ESGMetric.t }.

Definition init : t := mk [].

Definition extend (ms : list ESGMetric.t) : M t Datatypes.unit :=
  modify (fun self => mk (metrics self ++ ms)).

Definition governance_metric (now : Z) (project_id : option string)
    (metric_name : string) (value : Q) (unit verification : string)
    : ESGMetric.t :=
  ESGMetric.mk GOVERNANCE metric_name value unit now project_id
    verification false None.

Definition track_compliance_scores (now : Z) (project_id : option string)
    (state : string) (permit_compliance safety_compliance
     environmental_compliance : Q) : M t (list ESGMetric.t) :=
  let compliance_types :=
    [("permit_compliance", permit_compliance);
     ("safety_compliance", safety_compliance);
     ("environmental_compliance", environmental_compliance)] in
  let metrics :=
    map (fun '(compliance_type, score) =>
           governance_metric now project_id compliance_type score
             "percentage" "regulatory_audit")
        compliance_types in
  extend metrics ;;;
  ret metrics.

Definition track_certification_status (now : Z)
    (project_id : option string) (certifications : list string)
    : M t ESGMetric.t :=
  let certification_count := inject_Z (Z.of_nat (List.length certifications)) in
  let metric :=
    governance_metric now project_id "certification_count"
      certification_count "count" "certification_body_verification" in
  extend [metric] ;;;
  ret metric.
End GovernanceTracker.

(** ** The incentive calculation engine *)

Definition opt_string_eqb (o : option string) (s : string) : bool :=
  match o with
  | Some x => String.eqb x s
  | None => false
  end.

(** The branch of [calculate_incentive_value] that computes the value. *)
Inductive ValueBranch := PercentageBranch | PerUnitBranch | FlatBranch.

Module IncentiveCalculationEngine.
Import IncentiveOpportunity.

Definition d (y m dd : Z) : option date := Some (mkdate y m dd).

Definition _load_federal_incentives : list IncentiveOpportunity.t :=
  [ mk "ITC_SOLAR_2024" "Solar Investment Tax Credit" FEDERAL_TAX_CREDIT
       0 (Some 30) None "ALL" None None
       ["Solar PV system installation";
        "System must be placed in service by Dec 31, 2032";
        "System must meet IRS guidelines"]
       None (d 2032 12 31) (d 2032 12 31) false true
       ["System must remain in service for 5 years"];
    mk "PTC_WIND_2024" "Wind Production Tax Credit" FEDERAL_TAX_CREDIT
       28 None None "ALL" None None
       ["Wind energy facility"; "Construction begins before Jan 1, 2025"]
       None (d 2024 12 31) None false true [];
    mk "179D_DEDUCTION_2024"
       "179D Energy Efficient Commercial Buildings Deduction"
       FEDERAL_TAX_CREDIT (536 # 100) None None "ALL" None None
       ["Commercial building"; "50%+ energy reduction vs ASHRAE standard";
        "Prevailing wage requirements met"]
       None None None false true [];
    mk "45L_CREDIT_2024" "45L New Energy Efficient Home Credit"
       FEDERAL_TAX_CREDIT 5000 None None "ALL" None None
       ["Qualified new home"; "Energy Star or equivalent certification";
        "Meets prevailing wage requirements"]
       None None (d 2032 12 31) false true [] ].

Definition _load_state_incentives : gmap string (list IncentiveOpportunity.t) :=
  list_to_map
    [ ("FL",
       [ mk "FL_SOLAR_REBATE_2024" "Florida Solar Rebate Program"
            STATE_TAX_CREDIT 0 None (Some 20000) "FL" None None
            ["Florida resident"; "Solar PV system";
             "System size 2kW minimum"]
            (d 2024 12 31) None None true true [];
         mk "FL_PACE_2024" "Florida PACE Financing" PACE_FINANCING
            0 None (Some 1000000) "FL" None None
            ["Commercial or industrial property";
             "Energy efficiency or renewable energy project"]
            None None None true true [] ]);
      ("TX",
       [ mk "TX_SOLAR_EXEMPTION_2024" "Texas Solar Property Tax Exemption"
            STATE_TAX_CREDIT 0 (Some 100) None "TX" None None
            ["Solar energy device";
             "Installed on or in connection with dwelling"]
            None None None false true [] ]);
      ("LA",
       [ mk "LA_SOLAR_TAX_CREDIT_2024" "Louisiana Solar Tax Credit"
            STATE_TAX_CREDIT 0 (Some 25) (Some 12500) "LA" None None
            ["Louisiana resident"; "Solar energy system for residence"]
            None None (d 2025 12 31) false true [] ]);
      ("NY",
       [ mk "NY_SOLAR_TAX_CREDIT_2024" "New York State Solar Tax Credit"
            STATE_TAX_CREDIT 0 (Some 25) (Some 5000) "NY" None None
            ["New York State resident";
             "Solar electric generating equipment"]
            None None (d 2025 12 31) false true [] ]) ].

Definition _load_local_incentives : gmap string (list IncentiveOpportunity.t) :=
  list_to_map
    [ ("miami_dade_fl",
       [ mk "MIAMI_SOLAR_REBATE_2024" "Miami-Dade Solar Rebate"
            LOCAL_REBATE 1000 None (Some 1000) "FL" (Some "Miami-Dade") None
            ["Miami-Dade County resident"; "Solar PV installation"]
            (d 2024 12 31) None None true true [] ]) ].

Definition _load_utility_incentives : gmap string (list IncentiveOpportunity.t) :=
  list_to_map
    [ ("fpl",
       [ mk "FPL_SOLAR_REBATE_2024" "FPL SolarTogether Program"
            UTILITY_REBATE (3 # 100) None None "FL" None
            (Some "Florida Power & Light")
            ["FPL customer"; "Community solar subscription"]
            None None None true true [] ]) ].

Record t := mkEngine {
  federal_incentives : list IncentiveOpportunity.t;
  state_incentives : gmap string (list IncentiveOpportunity.t);
  local_incentives : gmap string (list IncentiveOpportunity.t);
  utility_incentives : gmap string (list IncentiveOpportunity.t) }.

Definition init : t :=
  mkEngine _load_federal_incentives _load_state_incentives
           _load_local_incentives _load_utility_incentives.

(** One iteration of the loop over [incentive.eligibility_criteria]. *)
Definition criterion_step (project_type : string)
    (building_type : option string) (criteria_met : nat)
    (criterion : string) : nat :=
  let criterion_lower := lower criterion in
  if str_in "solar" criterion_lower && str_in "solar" project_type
  then S criteria_met
  else if str_in "wind" criterion_lower && str_in "wind" project_type
  then S criteria_met
  else if str_in "energy efficiency" criterion_lower
          && str_in "efficiency" project_type
  then S criteria_met
  else if str_in "commercial" criterion_lower
          && opt_string_eqb building_type "commercial"
  then S criteria_met
  else if str_in "residential" criterion_lower
          && opt_string_eqb building_type "residential"
  then S criteria_met
  else criteria_met.

(** [deadline and current_date > deadline] *)
Definition past (current_date : date) (deadline : option date) : bool :=
  match deadline with
  | Some dl => date_gtb current_date dl
  | None => false
  end.

Definition _check_eligibility (today : date)
    (incentive : IncentiveOpportunity.t) (project_data : ProjectData)
    : bool :=
  let project_type := lower (get (pd_project_type project_data) "") in
  let criteria_met :=
    fold_left (criterion_step project_type (pd_building_type project_data))
              (eligibility_criteria incentive) 0%nat in
  let current_date := today in
  if past current_date (application_deadline incentive) then false
  else if past current_date (project_completion_deadline incentive)
  then false
  else (0 <? criteria_met)%nat.

Definition eligible_among (today : date) (project_data : ProjectData)
    (l : list IncentiveOpportunity.t) : list IncentiveOpportunity.t :=
  List.filter (fun i => _check_eligibility today i project_data) l.

(** [if key in table: for incentive in table[key]: ...] *)
Definition eligible_at (today : date) (project_data : ProjectData)
    (table : gmap string (list IncentiveOpportunity.t)) (key : string)
    : list IncentiveOpportunity.t :=
  match table !! key with
  | Some l => eligible_among today project_data l
  | None => []
  end.

Definition calculate_available_incentives (self : t) (today : date)
    (project_data : ProjectData) : result (list IncentiveOpportunity.t) :=
  let available_incentives :=
    eligible_among today project_data (federal_incentives self) in
  let state := pd_state project_data in
  let available_incentives :=
    match state with
    | Some st =>
        (available_incentives
         ++ eligible_at today project_data (state_incentives self) st)%list
    | None => available_incentives
    end in
  let city_part :=
    replace_char " " "_" (lower (get (pd_city project_data) "")) in
  match state with
  | None => Raise AttributeError
  | Some st =>
      let locality_key := (city_part ++ "_" ++ lower st)%string in
      let available_incentives :=
        (available_incentives
         ++ eligible_at today project_data (local_incentives self)
              locality_key)%list in
      let utility :=
        replace_char "&" ""
          (replace_char " " ""
             (lower (get (pd_utility_provider project_data) ""))) in
      let available_incentives :=
        (available_incentives
         ++ eligible_at today project_data (utility_incentives self)
              utility)%list in
      Ok available_incentives
  end.

Definition value_branch (incentive : IncentiveOpportunity.t)
    (project_size : option Q) : ValueBranch :=
  if truthy_opt (percentage incentive) then PercentageBranch
  else if truthy_opt project_size && truthy (amount incentive)
  then PerUnitBranch
  else FlatBranch.

(** [x] where the guard has established that [x] is not [None]. *)
Definition the (o : option Q) : Q := get o 0.

Definition calculate_incentive_value (incentive : IncentiveOpportunity.t)
    (project_cost : Q) (project_size : option Q) : Q :=
  if truthy_opt (percentage incentive) then
    let value :=
      project_cost
      * Decimal_str (float_truediv (the (percentage incentive)) 100) in
    if truthy_opt (max_amount incentive)
    then py_min value (the (max_amount incentive))
    else value
  else if truthy_opt project_size && truthy (amount incentive) then
    the project_size * amount incentive
  else
    if truthy (amount incentive) then amount incentive else 0.
End IncentiveCalculationEngine.

(** ** The ESG scoring engine *)

Definition opt_string_eq (a b : option string) : bool :=
  match a, b with
  | Some x, Some y => String.eqb x y
  | None, None => true
  | _, _ => false
  end.

Module ESGScoringEngine.
Import ESGMetric.

Record t := mk {
  environmental_tracker : EnvironmentalTracker.t;
  social_tracker : SocialImpactTracker.t;
  governance_tracker : GovernanceTracker.t }.

Definition init : t :=
  mk EnvironmentalTracker.init SocialImpactTracker.init
     GovernanceTracker.init.

Definition set_environmental_tracker (e : EnvironmentalTracker.t) (self : t) :=
  mk e (social_tracker self) (governance_tracker self).
Definition set_social_tracker (x : SocialImpactTracker.t) (self : t) :=
  mk (environmental_tracker self) x (governance_tracker self).
Definition set_governance_tracker (g : GovernanceTracker.t) (self : t) :=
  mk (environmental_tracker self) (social_tracker self) g.

(** Body of the loop of [_calculate_environmental_score]. *)
Definition environmental_step (score : Q) (metric : ESGMetric.t) : Q :=
  let score :=
    if String.eqb (metric_name metric) "energy_efficiency_improvement"
    then score + py_min 20 (value metric * (5 # 10))
    else if str_in "renewable_energy" (metric_name metric)
    then score + 15
    else if String.eqb (metric_name metric) "water_efficiency_improvement"
    then score + py_min 10 (value metric * (3 # 10))
    else if String.eqb (metric_name metric) "waste_diversion_rate"
    then score + py_min 15 (value metric * (2 # 10))
    else score in
  if third_party_verified metric then score + 2 else score.

Definition _calculate_environmental_score (metrics : list ESGMetric.t) : Q :=
  match metrics with
  | [] => 50
  | _ => py_min 100 (fold_left environmental_step metrics 50)
  end.

(** Body of the loop of [_calculate_social_score]. *)
Definition social_step (score : Q) (metric : ESGMetric.t) : Q :=
  if String.eqb (metric_name metric) "local_hire_rate"
  then score + py_min 15 (value metric * (3 # 10))
  else if str_in "hire_rate" (metric_name metric)
  then score + py_min 10 (value metric * (2 # 10))
  else if String.eqb (metric_name metric) "apprenticeship_rate"
  then score + py_min 10 (value metric * (4 # 10))
  else if String.eqb (metric_name metric) "osha_incident_rate"
  then (if Qltb (value metric) 2 then score + 15
        else if Qltb (value metric) 4 then score + 5
        else score)
  else score.

Definition _calculate_social_score (metrics : list ESGMetric.t) : Q :=
  match metrics with
  | [] => 50
  | _ => py_min 100 (fold_left social_step metrics 50)
  end.

(** Body of the loop of [_calculate_governance_score]. *)
Definition governance_step (score : Q) (metric : ESGMetric.t) : Q :=
  if str_in "compliance" (metric_name metric)
  then score + py_min 15 (value metric / 100 * 15)
  else if String.eqb (metric_name metric) "certification_count"
  then score + py_min 10 (value metric * 3)
  else score.

Definition _calculate_governance_score (metrics : list ESGMetric.t) : Q :=
  match metrics with
  | [] => 50
  | _ => py_min 100 (fold_left governance_step metrics 50)
  end.

(** The [if]/[elif] chain on [overall_score]. *)
Definition cert_level (overall_score : Q) : string :=
  if Qle_bool 90 overall_score then "Platinum"
  else if Qle_bool 80 overall_score then "Gold"
  else if Qle_bool 70 overall_score then "Silver"
  else if Qle_bool 60 overall_score then "Bronze"
  else "Standard".

Definition metrics_of (project_id : option string)
    (l : list ESGMetric.t) : list ESGMetric.t :=
  List.filter (fun m => opt_string_eq (ESGMetric.project_id m) project_id) l.

Definition calculate_esg_score (self : t) (now : Z)
    (project_id : option string) : ESGScore.t :=
  let env_metrics :=
    metrics_of project_id
      (EnvironmentalTracker.metrics (environmental_tracker self)) in
  let social_metrics :=
    metrics_of project_id
      (SocialImpactTracker.metrics (social_tracker self)) in
  let gov_metrics :=
    metrics_of project_id
      (GovernanceTracker.metrics (governance_tracker self)) in
  let env_score := _calculate_environmental_score env_metrics in
  let social_score := _calculate_social_score social_metrics in
  let gov_score := _calculate_governance_score gov_metrics in
  let overall_score :=
    env_score * (4 # 10) + social_score * (35 # 100)
    + gov_score * (25 # 100) in
  let peer_percentile :=
    py_min 95 (py_max 5 (overall_score + overall_score * (1 # 10))) in
  ESGScore.mk env_score social_score gov_score overall_score
    peer_percentile now (cert_level overall_score).
End ESGScoringEngine.

(** ** The integration engine *)

Record IncentiveSummary := {
  summary_name : string;
  summary_type : string;
  summary_value : Q;
  summary_requires_pre_approval : bool;
  summary_application_deadline : option date }.

Record Report := {
  report_project_id : option string;
  esg_score : ESGScore.t;
  available_incentives : list IncentiveSummary;
  total_incentive_value : Q;
  net_project_cost : Q;
  roi_improvement : Q }.

Module ESGIncentiveIntegrationEngine.
Record t := mk {
  esg_scoring : ESGScoringEngine.t;
  incentive_calc : IncentiveCalculationEngine.t }.

Definition init : t :=
  mk ESGScoringEngine.init IncentiveCalculationEngine.init.

Definition set_esg_scoring (e : ESGScoringEngine.t) (self : t) : t :=
  mk e (incentive_calc self).

Definition on_environmental {A} (m : M EnvironmentalTracker.t A) : M t A :=
  zoom esg_scoring set_esg_scoring
    (zoom ESGScoringEngine.environmental_tracker
          ESGScoringEngine.set_environmental_tracker m).

Definition on_social {A} (m : M SocialImpactTracker.t A) : M t A :=
  zoom esg_scoring set_esg_scoring
    (zoom ESGScoringEngine.social_tracker
          ESGScoringEngine.set_social_tracker m).

Definition _track_project_metrics (now : Z) (project_id : option string)
    (project_data : ProjectData) : M t Datatypes.unit :=
  let project_type := lower (get (pd_project_type project_data) "") in
  (if str_in "solar" project_type
   then on_environmental
          (EnvironmentalTracker.track_renewable_energy now project_id
             "solar_pv"
             (get (pd_system_capacity_kw project_data) 10)
             (get (pd_annual_production_kwh project_data) 15000)) ;;;
        ret tt
   else ret tt) ;;;
  (if str_in "energy efficiency" project_type
   then on_environmental
          (EnvironmentalTracker.track_energy_efficiency now project_id
             (get (pd_building_type project_data) "commercial")
             (get (pd_square_footage project_data) 5000)
             (get (pd_baseline_energy_usage project_data) 100000)
             (get (pd_projected_energy_usage project_data) 70000)) ;;;
        ret tt
   else ret tt) ;;;
  on_social
    (SocialImpactTracker.track_local_hiring now project_id
       (get (pd_total_workers project_data) 10%Z)
       (get (pd_local_workers project_data) 8%Z)) ;;;
  on_social
    (SocialImpactTracker.track_safety_metrics now project_id
       (get (pd_total_hours project_data) 2000)
       (get (pd_incidents project_data) 0%Z)
       (get (pd_near_misses project_data) 2%Z)) ;;;
  ret tt.

(** Body of the loop over [available_incentives]: the accumulator is
    ([incentive_summary], [total_incentive_value]). *)
Definition summary_step (self : t) (project_cost : Q)
    (project_size : option Q) (acc : list IncentiveSummary * Q)
    (incentive : IncentiveOpportunity.t) : list IncentiveSummary * Q :=
  let value :=
    IncentiveCalculationEngine.calculate_incentive_value incentive
      project_cost project_size in
  ((fst acc
    ++ [ {| summary_name := IncentiveOpportunity.name incentive;
            summary_type :=
              IncentiveType_value (IncentiveOpportunity.type incentive);
            summary_value := value;
            summary_requires_pre_approval :=
              IncentiveOpportunity.requires_pre_approval incentive;
            summary_application_deadline :=
              IncentiveOpportunity.application_deadline incentive |} ])%list,
   snd acc + value).

Definition process_project_esg_incentives (now : Z) (today : date)
    (project_data : ProjectData) : M t Report :=
  let project_id := pd_project_id project_data in
  _track_project_metrics now project_id project_data ;;;
  self <- read ;;
  let esg_score :=
    ESGScoringEngine.calculate_esg_score (esg_scoring self) now
      project_id in
  available_incentives <-
    lift_result
      (IncentiveCalculationEngine.calculate_available_incentives
         (incentive_calc self) today project_data) ;;
  let project_cost := get (pd_project_cost project_data) 0 in
  let project_size := pd_project_size project_data in
  let '(incentive_summary, total_incentive_value) :=
    fold_left (summary_step self project_cost project_size)
              available_incentives ([], 0) in
  ret {| report_project_id := project_id;
         esg_score := esg_score;
         available_incentives := incentive_summary;
         total_incentive_value := total_incentive_value;
         net_project_cost := project_cost - total_incentive_value;
         roi_improvement :=
           if Qltb 0 project_cost
           then total_incentive_value / project_cost * 100
           else 0 |}.
End ESGIncentiveIntegrationEngine.

(** * Properties *)

(** ** Numbers *)

Lemma Qltb_lt (a b : Q) : Qltb a b = true <-> a < b.
Proof.
  unfold Qltb. rewrite negb_true_iff.
  destruct (Qle_bool b a) eqn:E.
  - apply Qle_bool_iff in E. split; [discriminate | lra].
  - split; [intros _ | reflexivity].
    apply Qnot_le_lt. intros H. apply Qle_bool_iff in H. congruence.
Qed.

Lemma Qltb_ge (a b : Q) : Qltb a b = false <-> b <= a.
Proof.
  unfold Qltb. rewrite negb_false_iff. apply Qle_bool_iff.
Qed.

Lemma Qle_bool_false (a b : Q) : Qle_bool a b = false <-> b < a.
Proof.
  rewrite <- Qltb_lt. unfold Qltb. now rewrite negb_true_iff.
Qed.

Lemma truthy_false (q : Q) : truthy q = false <-> q == 0.
Proof.
  unfold truthy. rewrite negb_false_iff. apply Qeq_bool_iff.
Qed.

Lemma truthy_true (q : Q) : truthy q = true <-> ~ q == 0.
Proof.
  unfold truthy. rewrite negb_true_iff. split.
  - apply Qeq_bool_neq.
  - intros H. destruct (Qeq_bool q 0) eqn:E; [| reflexivity].
    apply Qeq_bool_iff in E. contradiction.
Qed.

Lemma py_min_cases (a b : Q) :
  (b < a /\ py_min a b = b) \/ (a <= b /\ py_min a b = a).
Proof.
  unfold py_min. destruct (Qltb b a) eqn:E.
  - left. apply Qltb_lt in E. auto.
  - right. apply Qltb_ge in E. auto.
Qed.

Lemma py_min_le_l (a b : Q) : py_min a b <= a.
Proof. destruct (py_min_cases a b) as [[? ->] | [? ->]]; lra. Qed.

Lemma py_min_le_r (a b : Q) : py_min a b <= b.
Proof. destruct (py_min_cases a b) as [[? ->] | [? ->]]; lra. Qed.

Lemma py_min_glb (a b c : Q) : c <= a -> c <= b -> c <= py_min a b.
Proof. destruct (py_min_cases a b) as [[? ->] | [? ->]]; lra. Qed.

Lemma py_min_Qmin (a b : Q) : py_min a b == Qmin a b.
Proof.
  destruct (py_min_cases a b) as [[H ->] | [H ->]].
  - rewrite Q.min_r; lra.
  - rewrite Q.min_l; lra.
Qed.

(** ** Loops *)

Section FoldBounds.
Context {A : Type} (step : Q -> A -> Q) (P : A -> Prop).
Hypothesis step_grows : forall s a, P a -> s <= step s a.

Lemma fold_left_grows (l : list A) (s : Q) :
  List.Forall P l -> s <= fold_left step l s.
Proof.
  revert s. induction l as [| a l IH]; intros s Hl; simpl.
  - lra.
  - inversion Hl; subst.
    apply Qle_trans with (step s a); auto.
Qed.
End FoldBounds.

(** ** Scores *)

Lemma opt_string_eq_true (a b : option string) :
  opt_string_eq a b = true <-> a = b.
Proof.
  destruct a as [x |], b as [y |]; simpl; try (split; congruence).
  rewrite String.eqb_eq. split; congruence.
Qed.

Section ScoreBounds.
Import ESGScoringEngine.

Definition nonneg_value (m : ESGMetric.t) : Prop := 0 <= ESGMetric.value m.

(** No metric of the project is recorded in the list. *)
Definition none_for (pid : option string) (l : list ESGMetric.t) : Prop :=
  forall m, In m l -> ESGMetric.project_id m <> pid.

(** Every metric of the project in the list has a value of at least 0. *)
Definition nonneg_for (pid : option string) (l : list ESGMetric.t) : Prop :=
  forall m, In m l -> ESGMetric.project_id m = pid -> nonneg_value m.

Lemma metrics_of_none pid l : none_for pid l -> metrics_of pid l = [].
Proof.
  unfold none_for, metrics_of. induction l as [| m l IH]; intros H; simpl.
  - reflexivity.
  - destruct (opt_string_eq (ESGMetric.project_id m) pid) eqn:E.
    + apply opt_string_eq_true in E. exfalso.
      apply (H m); [left; reflexivity | exact E].
    + apply IH. intros m' Hm'. apply H. right. exact Hm'.
Qed.

Lemma metrics_of_nonneg pid l :
  nonneg_for pid l -> List.Forall nonneg_value (metrics_of pid l).
Proof.
  unfold nonneg_for, metrics_of. intros H.
  apply List.Forall_forall. intros m Hm.
  apply List.filter_In in Hm. destruct Hm as [Hin E].
  apply opt_string_eq_true in E. auto.
Qed.

Lemma py_min_nonneg (cap x : Q) : 0 <= cap -> 0 <= x -> 0 <= py_min cap x.
Proof. intros. apply py_min_glb; assumption. Qed.

Lemma environmental_step_grows s m :
  nonneg_value m -> s <= environmental_step s m.
Proof.
  unfold nonneg_value, environmental_step. intros Hv.
  assert (H1 : 0 <= py_min 20 (ESGMetric.value m * (5 # 10)))
    by (apply py_min_nonneg; lra).
  assert (H2 : 0 <= py_min 10 (ESGMetric.value m * (3 # 10)))
    by (apply py_min_nonneg; lra).
  assert (H3 : 0 <= py_min 15 (ESGMetric.value m * (2 # 10)))
    by (apply py_min_nonneg; lra).
  repeat match goal with
         | |- context [if ?b then _ else _] => destruct b
         end; lra.
Qed.

Lemma social_step_grows s m : nonneg_value m -> s <= social_step s m.
Proof.
  unfold nonneg_value, social_step. intros Hv.
  assert (H1 : 0 <= py_min 15 (ESGMetric.value m * (3 # 10)))
    by (apply py_min_nonneg; lra).
  assert (H2 : 0 <= py_min 10 (ESGMetric.value m * (2 # 10)))
    by (apply py_min_nonneg; lra).
  assert (H3 : 0 <= py_min 10 (ESGMetric.value m * (4 # 10)))
    by (apply py_min_nonneg; lra).
  repeat match goal with
         | |- context [if ?b then _ else _] => destruct b
         end; lra.
Qed.

Lemma governance_step_grows s m :
  nonneg_value m -> s <= governance_step s m.
Proof.
  unfold nonneg_value, governance_step. intros Hv.
  assert (H1 : 0 <= py_min 15 (ESGMetric.value m / 100 * 15)).
  { apply py_min_nonneg; [lra |].
    assert (0 <= ESGMetric.value m / 100)
      by (apply Qle_shift_div_l; lra).
    lra. }
  assert (H2 : 0 <= py_min 10 (ESGMetric.value m * 3))
    by (apply py_min_nonneg; lra).
  repeat match goal with
         | |- context [if ?b then _ else _] => destruct b
         end; lra.
Qed.

Lemma environmental_upper l : _calculate_environmental_score l <= 100.
Proof.
  destruct l; simpl; [lra | apply py_min_le_l].
Qed.

Lemma social_upper l : _calculate_social_score l <= 100.
Proof.
  destruct l; simpl; [lra | apply py_min_le_l].
Qed.

Lemma governance_upper l : _calculate_governance_score l <= 100.
Proof.
  destruct l; simpl; [lra | apply py_min_le_l].
Qed.

Lemma environmental_lower l :
  List.Forall nonneg_value l -> 50 <= _calculate_environmental_score l.
Proof.
  intros H. destruct l as [| m l]; [simpl; lra |].
  unfold _calculate_environmental_score.
  apply py_min_glb; [lra |].
  apply (fold_left_grows _ nonneg_value environmental_step_grows); exact H.
Qed.

Lemma social_lower l :
  List.Forall nonneg_value l -> 50 <= _calculate_social_score l.
Proof.
  intros H. destruct l as [| m l]; [simpl; lra |].
  unfold _calculate_social_score.
  apply py_min_glb; [lra |].
  apply (fold_left_grows _ nonneg_value social_step_grows); exact H.
Qed.

Lemma governance_lower l :
  List.Forall nonneg_value l -> 50 <= _calculate_governance_score l.
Proof.
  intros H. destruct l as [| m l]; [simpl; lra |].
  unfold _calculate_governance_score.
  apply py_min_glb; [lra |].
  apply (fold_left_grows _ nonneg_value governance_step_grows); exact H.
Qed.
End ScoreBounds.

(** The metric log of the engine, restricted to one project. *)
Definition empty_log (pid : option string) (self : ESGScoringEngine.t) : Prop :=
  none_for pid
    (EnvironmentalTracker.metrics (ESGScoringEngine.environmental_tracker self))
  /\ none_for pid
       (SocialImpactTracker.metrics (ESGScoringEngine.social_tracker self))
  /\ none_for pid
       (GovernanceTracker.metrics (ESGScoringEngine.governance_tracker self)).

Definition nonneg_log (pid : option string) (self : ESGScoringEngine.t) : Prop :=
  nonneg_for pid
    (EnvironmentalTracker.metrics (ESGScoringEngine.environmental_tracker self))
  /\ nonneg_for pid
       (SocialImpactTracker.metrics (ESGScoringEngine.social_tracker self))
  /\ nonneg_for pid
       (GovernanceTracker.metrics (ESGScoringEngine.governance_tracker self)).

Definition in_range (x : Q) : Prop := 0 <= x /\ x <= 100.

(** The scoring engine after one call of [track_energy_efficiency] on a
    fresh engine, for a building that uses 500 units against a baseline
    of 100: the recorded improvement is -400 percent. *)
Definition overrun_engine : ESGScoringEngine.t :=
  snd (zoom ESGScoringEngine.environmental_tracker
            ESGScoringEngine.set_environmental_tracker
            (EnvironmentalTracker.track_energy_efficiency 0 (Some "P1")
               "commercial" 1000 100 500)
            ESGScoringEngine.init).

(** The scoring engine after one call of [track_renewable_energy] on a
    fresh engine. *)
Definition solar_engine : ESGScoringEngine.t :=
  snd (zoom ESGScoringEngine.environmental_tracker
            ESGScoringEngine.set_environmental_tracker
            (EnvironmentalTracker.track_renewable_energy 0 (Some "P1")
               "solar_pv" 50 75000)
            ESGScoringEngine.init).

Ltac qcmp := unfold Qle, Qlt; simpl; lia.

(** C1, the claim as stated fails: a recorded energy overrun gives an
    environmental score of -148 and an overall score of -29.2, both below
    the claimed range. *)
Lemma C1_negative_score_counterexample :
  let s := ESGScoringEngine.calculate_esg_score overrun_engine 0 (Some "P1") in
  ESGScore.environmental_score s == -148
  /\ ESGScore.overall_score s == - (292 # 10)
  /\ ~ (in_range (ESGScore.environmental_score s)
        /\ in_range (ESGScore.social_score s)
        /\ in_range (ESGScore.governance_score s)
        /\ in_range (ESGScore.overall_score s)).
Proof.
  assert (He : ESGScore.environmental_score
                 (ESGScoringEngine.calculate_esg_score overrun_engine 0
                    (Some "P1")) == -148)
    by (vm_compute; reflexivity).
  assert (Ho : ESGScore.overall_score
                 (ESGScoringEngine.calculate_esg_score overrun_engine 0
                    (Some "P1")) == - (292 # 10))
    by (vm_compute; reflexivity).
  cbv zeta. split; [exact He |]. split; [exact Ho |].
  unfold in_range. intros [[H _] _]. rewrite He in H. revert H. qcmp.
Qed.

(** C1 (amended): for every metric log, each of the three category scores
    and the weighted overall score is at most 100; when every metric value
    recorded for the project is non-negative, each of them also is at
    least 0, hence in the range 0..100. *)
Theorem C1_scores_bounded (self : ESGScoringEngine.t) (now : Z)
    (pid : option string) :
  let s := ESGScoringEngine.calculate_esg_score self now pid in
  (ESGScore.environmental_score s <= 100
   /\ ESGScore.social_score s <= 100
   /\ ESGScore.governance_score s <= 100
   /\ ESGScore.overall_score s <= 100
   /\ ESGScore.overall_score s ==
        (4 # 10) * ESGScore.environmental_score s
        + (35 # 100) * ESGScore.social_score s
        + (25 # 100) * ESGScore.governance_score s)
  /\ (nonneg_log pid self ->
      in_range (ESGScore.environmental_score s)
      /\ in_range (ESGScore.social_score s)
      /\ in_range (ESGScore.governance_score s)
      /\ in_range (ESGScore.overall_score s)).
Proof.
  cbv zeta. unfold ESGScoringEngine.calculate_esg_score. cbn [ESGScore.environmental_score
    ESGScore.social_score ESGScore.governance_score ESGScore.overall_score].
  set (le := ESGScoringEngine.metrics_of pid _).
  set (ls := ESGScoringEngine.metrics_of pid _).
  set (lg := ESGScoringEngine.metrics_of pid _).
  pose proof (environmental_upper le) as Ue.
  pose proof (social_upper ls) as Us.
  pose proof (governance_upper lg) as Ug.
  split.
  - repeat split; try assumption; lra.
  - intros (He & Hs & Hg).
    pose proof (environmental_lower le (metrics_of_nonneg _ _ He)) as Le.
    pose proof (social_lower ls (metrics_of_nonneg _ _ Hs)) as Ls.
    pose proof (governance_lower lg (metrics_of_nonneg _ _ Hg)) as Lg.
    unfold in_range. repeat split; lra.
Qed.

Lemma C1_scores_bounded_witness :
  nonneg_log (Some "P1") solar_engine
  /\ in_range (ESGScore.overall_score
                 (ESGScoringEngine.calculate_esg_score solar_engine 0
                    (Some "P1"))).
Proof.
  assert (H : nonneg_log (Some "P1") solar_engine).
  { unfold nonneg_log, nonneg_for, nonneg_value.
    repeat split; intros m Hin _; simpl in Hin;
      repeat (destruct Hin as [<- | Hin]; [simpl; qcmp |]);
      destruct Hin. }
  split; [exact H |].
  apply (C1_scores_bounded solar_engine 0 (Some "P1")). exact H.
Defined.

(** With non-negative metric values the scores are in fact at least 50. *)
Lemma scores_at_least_baseline (self : ESGScoringEngine.t) (now : Z)
    (pid : option string) :
  nonneg_log pid self ->
  let s := ESGScoringEngine.calculate_esg_score self now pid in
  50 <= ESGScore.environmental_score s
  /\ 50 <= ESGScore.social_score s
  /\ 50 <= ESGScore.governance_score s
  /\ 50 <= ESGScore.overall_score s.
Proof.
  intros (He & Hs & Hg). cbv zeta.
  unfold ESGScoringEngine.calculate_esg_score. cbn [ESGScore.environmental_score
    ESGScore.social_score ESGScore.governance_score ESGScore.overall_score].
  pose proof (environmental_lower _ (metrics_of_nonneg _ _ He)) as Le.
  pose proof (social_lower _ (metrics_of_nonneg _ _ Hs)) as Ls.
  pose proof (governance_lower _ (metrics_of_nonneg _ _ Hg)) as Lg.
  repeat split; lra.
Qed.

(** C6: a project with no recorded metric in any category scores exactly
    50.0 in each category, 50.0 overall, and is certified "Standard". *)
Theorem C6_empty_log_baseline (self : ESGScoringEngine.t) (now : Z)
    (pid : option string) :
  empty_log pid self ->
  let s := ESGScoringEngine.calculate_esg_score self now pid in
  ESGScore.environmental_score s = 50
  /\ ESGScore.social_score s = 50
  /\ ESGScore.governance_score s = 50
  /\ ESGScore.overall_score s == 50
  /\ ESGScore.certification_level s = "Standard".
Proof.
  intros (He & Hs & Hg). cbv zeta.
  unfold ESGScoringEngine.calculate_esg_score.
  rewrite (metrics_of_none _ _ He), (metrics_of_none _ _ Hs),
    (metrics_of_none _ _ Hg).
  cbn [ESGScore.environmental_score ESGScore.social_score
       ESGScore.governance_score ESGScore.overall_score
       ESGScore.certification_level].
  repeat split; reflexivity.
Qed.

Lemma C6_empty_log_baseline_witness :
  empty_log (Some "P2") solar_engine
  /\ ESGScore.certification_level
       (ESGScoringEngine.calculate_esg_score solar_engine 0 (Some "P2"))
     = "Standard".
Proof.
  assert (H : empty_log (Some "P2") solar_engine).
  { unfold empty_log, none_for.
    repeat split; intros m Hin; simpl in Hin;
      repeat (destruct Hin as [<- | Hin]; [simpl; discriminate |]);
      destruct Hin. }
  split; [exact H |].
  apply (C6_empty_log_baseline solar_engine 0 (Some "P2")). exact H.
Defined.

(** C7: the certification tier is read off the overall score by inclusive
    lower bounds, highest first: at least 90 Platinum, at least 80 Gold,
    at least 70 Silver, at least 60 Bronze, below 60 Standard. *)
Theorem C7_tier_thresholds (overall : Q) :
  (90 <= overall -> ESGScoringEngine.cert_level overall = "Platinum")
  /\ (80 <= overall -> overall < 90 ->
      ESGScoringEngine.cert_level overall = "Gold")
  /\ (70 <= overall -> overall < 80 ->
      ESGScoringEngine.cert_level overall = "Silver")
  /\ (60 <= overall -> overall < 70 ->
      ESGScoringEngine.cert_level overall = "Bronze")
  /\ (overall < 60 -> ESGScoringEngine.cert_level overall = "Standard")
  /\ (forall self now pid,
        let s := ESGScoringEngine.calculate_esg_score self now pid in
        ESGScore.certification_level s
        = ESGScoringEngine.cert_level (ESGScore.overall_score s))
  /\ ESGScoringEngine.cert_level 90 = "Platinum"
  /\ ESGScoringEngine.cert_level (89999 # 1000) = "Gold"
  /\ ESGScoringEngine.cert_level 80 = "Gold"
  /\ ESGScoringEngine.cert_level 70 = "Silver"
  /\ ESGScoringEngine.cert_level 60 = "Bronze"
  /\ ESGScoringEngine.cert_level (59999 # 1000) = "Standard".
Proof.
  unfold ESGScoringEngine.cert_level.
  destruct (Qle_bool 90 overall) eqn:E90;
    [apply Qle_bool_iff in E90 | apply Qle_bool_false in E90];
  (destruct (Qle_bool 80 overall) eqn:E80;
    [apply Qle_bool_iff in E80 | apply Qle_bool_false in E80]);
  (destruct (Qle_bool 70 overall) eqn:E70;
    [apply Qle_bool_iff in E70 | apply Qle_bool_false in E70]);
  (destruct (Qle_bool 60 overall) eqn:E60;
    [apply Qle_bool_iff in E60 | apply Qle_bool_false in E60]);
  repeat split; intros; try reflexivity; exfalso; lra.
Qed.

Lemma C7_tier_thresholds_witness :
  80 <= 85 /\ 85 < 90 /\ ESGScoringEngine.cert_level 85 = "Gold".
Proof.
  assert (H1 : 80 <= 85) by qcmp.
  assert (H2 : 85 < 90) by qcmp.
  split; [exact H1 |]. split; [exact H2 |].
  destruct (C7_tier_thresholds 85) as (_ & H & _).
  exact (H H1 H2).
Defined.

(** ** Binary64 results are not negative on non-negative input *)

Lemma pow2Q_nonneg (k : Z) : 0 <= pow2Q k.
Proof.
  unfold pow2Q. destruct (0 <=? k)%Z.
  - change 0 with (inject_Z 0). rewrite <- Zle_Qle. apply Z.pow_nonneg. lia.
  - apply Qinv_le_0_compat. change 0 with (inject_Z 0). rewrite <- Zle_Qle.
    apply Z.pow_nonneg. lia.
Qed.

Lemma pow10Q_nonneg (k : Z) : 0 <= pow10Q k.
Proof.
  unfold pow10Q. destruct (0 <=? k)%Z.
  - change 0 with (inject_Z 0). rewrite <- Zle_Qle. apply Z.pow_nonneg. lia.
  - apply Qinv_le_0_compat. change 0 with (inject_Z 0). rewrite <- Zle_Qle.
    apply Z.pow_nonneg. lia.
Qed.

Lemma round_half_even_nonneg (a b : Z) :
  (0 <= a)%Z -> (0 < b)%Z -> (0 <= round_half_even a b)%Z.
Proof.
  intros Ha Hb. unfold round_half_even.
  assert (0 <= a / b)%Z by (apply Z.div_pos; lia).
  destruct (2 * (a mod b) ?= b)%Z; [destruct (Z.even (a / b)) | |]; lia.
Qed.

Lemma scaled_signs (base a b k x y : Z) :
  (0 < base)%Z -> (0 <= a)%Z -> (0 < b)%Z -> scaled base a b k = (x, y) ->
  (0 <= x)%Z /\ (0 < y)%Z.
Proof.
  intros Hbase Ha Hb. unfold scaled.
  destruct (0 <=? k)%Z eqn:E; intros H; injection H as <- <-.
  - split; [| lia]. apply Z.mul_nonneg_nonneg; [lia |].
    apply Z.pow_nonneg. lia.
  - split; [lia |]. apply Z.mul_pos_pos; [lia |].
    apply Z.pow_pos_nonneg; lia.
Qed.

Lemma b64_pos_nonneg (a b : Z) : (0 < a)%Z -> (0 < b)%Z -> 0 <= b64_pos a b.
Proof.
  intros Ha Hb. unfold b64_pos.
  destruct (scaled 2 a b (- (Z.log2 a - Z.log2 b))) as [x y].
  destruct (scaled 2 a b _) as [x' y'] eqn:E.
  destruct (scaled_signs 2 a b _ x' y' ltac:(lia) ltac:(lia) Hb E) as [Hx Hy].
  apply Qmult_le_0_compat; [| apply pow2Q_nonneg].
  change 0 with (inject_Z 0). rewrite <- Zle_Qle.
  apply round_half_even_nonneg; assumption.
Qed.

Lemma b64_nonneg (q : Q) : 0 <= q -> 0 <= b64 q.
Proof.
  destruct q as [n d]. intros H.
  assert (Hn : (0 <= n)%Z) by (unfold Qle in H; simpl in H; lia).
  unfold b64. cbn [Qnum Qden].
  destruct n as [| n | n]; [apply Qle_refl | | lia].
  apply (b64_pos_nonneg (Zpos n) (Zpos d)); lia.
Qed.

Lemma float_truediv_nonneg (a b : Q) :
  0 <= a -> 0 <= b -> 0 <= float_truediv a b.
Proof.
  intros Ha Hb. unfold float_truediv. apply b64_nonneg.
  pose proof (b64_nonneg a Ha) as Ha'. pose proof (b64_nonneg b Hb) as Hb'.
  unfold Qdiv. apply Qmult_le_0_compat; [exact Ha' |].
  apply Qinv_le_0_compat. exact Hb'.
Qed.

Lemma shortest_nonneg (fuel : nat) (f : Q) (a b k n : Z) :
  0 <= f -> (0 < a)%Z -> (0 < b)%Z -> 0 <= shortest fuel f a b k n.
Proof.
  intros Hf Ha Hb. revert n. induction fuel as [| fuel IH]; intros n; simpl.
  - exact Hf.
  - destruct (scaled 10 a b (n - k)) as [x y] eqn:E.
    destruct (scaled_signs 10 a b _ x y ltac:(lia) ltac:(lia) Hb E) as [Hx Hy].
    assert (Hlo : (0 <= x / y)%Z) by (apply Z.div_pos; lia).
    assert (Hc : forall z, (0 <= z)%Z -> 0 <= inject_Z z * pow10Q (- (n - k))).
    { intros z Hz. apply Qmult_le_0_compat; [| apply pow10Q_nonneg].
      change 0 with (inject_Z 0). rewrite <- Zle_Qle. exact Hz. }
    repeat match goal with
           | |- context [if ?c then _ else _] => destruct c
           | |- context [match ?c with Eq => _ | Lt => _ | Gt => _ end] =>
               destruct c
           end;
      first [exact Hf | apply Hc; lia | apply IH].
Qed.

Lemma Decimal_str_nonneg (f : Q) : 0 <= f -> 0 <= Decimal_str f.
Proof.
  intros Hf. destruct f as [n d]. unfold Decimal_str.
  assert (Hn : (0 <= n)%Z) by (unfold Qle in Hf; simpl in Hf; lia).
  cbn [Qnum Qden]. destruct n as [| n | n]; [apply Qle_refl | | lia].
  apply shortest_nonneg; [exact Hf | lia | lia].
Qed.

(** ** Incentive values *)

(** The factor a percentage stands for: [Decimal(str(percentage / 100))]. *)
Definition percentage_rate (p : Q) : Q := Decimal_str (float_truediv p 100).

Lemma percentage_rate_nonneg (p : Q) : 0 <= p -> 0 <= percentage_rate p.
Proof.
  intros Hp. apply Decimal_str_nonneg, float_truediv_nonneg; [exact Hp |].
  unfold Qle. simpl. lia.
Qed.

(** The percentage [p] when the incentive has a percentage that counts as
    set for [calculate_incentive_value]. *)
Lemma truthy_opt_Some (o : option Q) (q : Q) :
  o = Some q -> ~ q == 0 -> truthy_opt o = true.
Proof. intros -> H. simpl. now apply truthy_true. Qed.

Lemma truthy_opt_zero (o : option Q) (q : Q) :
  o = Some q -> q == 0 -> truthy_opt o = false.
Proof. intros -> H. simpl. now apply truthy_false. Qed.

(** [calculate_incentive_value] computes in the branch named by
    [value_branch]. *)
Lemma value_by_branch (inc : IncentiveOpportunity.t) (cost : Q)
    (size : option Q) :
  IncentiveCalculationEngine.calculate_incentive_value inc cost size
  = match IncentiveCalculationEngine.value_branch inc size with
    | PercentageBranch =>
        let value :=
          cost * percentage_rate
                   (IncentiveCalculationEngine.the
                      (IncentiveOpportunity.percentage inc)) in
        if truthy_opt (IncentiveOpportunity.max_amount inc)
        then py_min value
               (IncentiveCalculationEngine.the
                  (IncentiveOpportunity.max_amount inc))
        else value
    | PerUnitBranch =>
        IncentiveCalculationEngine.the size * IncentiveOpportunity.amount inc
    | FlatBranch =>
        if truthy (IncentiveOpportunity.amount inc)
        then IncentiveOpportunity.amount inc else 0
    end.
Proof.
  unfold IncentiveCalculationEngine.calculate_incentive_value,
    IncentiveCalculationEngine.value_branch.
  destruct (truthy_opt (IncentiveOpportunity.percentage inc)); [reflexivity |].
  destruct (truthy_opt size && truthy (IncentiveOpportunity.amount inc));
    reflexivity.
Qed.

(** An incentive that carries [percentage=0.0] next to a flat amount. *)
Definition zero_percentage_incentive : IncentiveOpportunity.t :=
  IncentiveOpportunity.mk "ZERO_PCT" "Zero percentage incentive" GRANT
    28 (Some 0) None "ALL" None None [] None None None false true [].

(** An incentive with [percentage=33.3] and no cap. *)
Definition third_percentage_incentive : IncentiveOpportunity.t :=
  IncentiveOpportunity.mk "THIRD_PCT" "One third incentive" GRANT
    0 (Some (333 # 10)) None "ALL" None None [] None None None false true [].

(** The Louisiana solar tax credit of the catalogue: 25 percent, capped at
    12500. *)
Definition LA_SOLAR_TAX_CREDIT_2024 : IncentiveOpportunity.t :=
  IncentiveOpportunity.mk "LA_SOLAR_TAX_CREDIT_2024"
    "Louisiana Solar Tax Credit" STATE_TAX_CREDIT 0 (Some 25) (Some 12500)
    "LA" None None
    ["Louisiana resident"; "Solar energy system for residence"]
    None None (Some (mkdate 2025 12 31)) false true [].

Lemma LA_SOLAR_TAX_CREDIT_2024_in_catalogue :
  IncentiveCalculationEngine._load_state_incentives !! "LA"
  = Some [LA_SOLAR_TAX_CREDIT_2024].
Proof. vm_compute. reflexivity. Qed.

(** The number has a decimal form of at most [k] significant digits. *)
Definition has_digits (k : Z) (q : Q) : Prop :=
  exists c e : Z, (Z.abs c < 10 ^ k)%Z /\ q == inject_Z c * pow10Q e.

(** The quotient [p / 100] computed in binary64 prints as the decimal
    quotient itself. *)
Definition prints_exactly (p : Q) : Prop := percentage_rate p == p / 100.

Definition whole_percentages : list Z := List.map Z.of_nat (List.seq 1 100).

Lemma whole_percentages_checked :
  forallb (fun n => Qeq_bool (percentage_rate (inject_Z n)) (inject_Z n / 100))
    whole_percentages = true.
Proof. vm_compute. reflexivity. Qed.

(** Every whole-number percentage from 1 to 100 prints exactly. *)
Lemma whole_percentage_prints_exactly (n : Z) :
  (1 <= n <= 100)%Z -> prints_exactly (inject_Z n).
Proof.
  intros Hn. unfold prints_exactly. apply Qeq_bool_iff.
  pose proof whole_percentages_checked as H.
  rewrite List.forallb_forall in H. apply H.
  unfold whole_percentages. apply List.in_map_iff.
  exists (Z.to_nat n). split; [lia |]. apply List.in_seq. lia.
Qed.

(** C3, the claim as stated fails twice.  A percentage that is set to 0.0
    is skipped: the claimed value is cost x 0 / 100 = 0 and the code
    returns the flat amount 28.  A percentage of 33.3 is divided by 100 in
    binary64 before it becomes a decimal: the claimed value is 33300 and
    the code returns 33299.999999999996. *)
Lemma C3_percentage_counterexample :
  (IncentiveOpportunity.percentage zero_percentage_incentive = Some 0
   /\ IncentiveCalculationEngine.calculate_incentive_value
        zero_percentage_incentive 100000 None == 28
   /\ ~ (IncentiveCalculationEngine.calculate_incentive_value
           zero_percentage_incentive 100000 None == 100000 * (0 / 100)))
  /\ (IncentiveOpportunity.percentage third_percentage_incentive
      = Some (333 # 10)
      /\ IncentiveCalculationEngine.calculate_incentive_value
           third_percentage_incentive 100000 None
         == 33299999999999996 # 1000000000000
      /\ ~ (IncentiveCalculationEngine.calculate_incentive_value
              third_percentage_incentive 100000 None
            == 100000 * ((333 # 10) / 100))).
Proof.
  split.
  - split; [reflexivity |]. split; [vm_compute; reflexivity |].
    vm_compute. discriminate.
  - split; [reflexivity |]. split; [vm_compute; reflexivity |].
    vm_compute. discriminate.
Qed.

(** C3 (amended): for every incentive whose percentage is set, is not zero
    and prints exactly (its binary64 quotient by 100 prints as the decimal
    quotient, as for every whole-number percentage from 1 to 100), and
    every project cost for which the product fits the 28 digits of the
    decimal context, the value is cost x percentage / 100, and when the
    incentive also has a max_amount that is not zero the value is the
    minimum of that product and max_amount; 30 percent without cap of
    100000 is 30000, and 100 percent capped at 5000 of 100000 is 5000. *)
Theorem C3_percentage_value (inc : IncentiveOpportunity.t) (cost : Q)
    (size : option Q) (pct : Q) :
  IncentiveOpportunity.percentage inc = Some pct ->
  ~ pct == 0 ->
  prints_exactly pct ->
  has_digits 28 (cost * (pct / 100)) ->
  (IncentiveOpportunity.max_amount inc = None ->
   IncentiveCalculationEngine.calculate_incentive_value inc cost size
   == cost * (pct / 100))
  /\ (forall cap,
        IncentiveOpportunity.max_amount inc = Some cap -> ~ cap == 0 ->
        IncentiveCalculationEngine.calculate_incentive_value inc cost size
        == Qmin (cost * (pct / 100)) cap)
  /\ (forall n, (1 <= n <= 100)%Z -> prints_exactly (inject_Z n))
  /\ (forall inc',
        IncentiveOpportunity.percentage inc' = Some 30 ->
        IncentiveOpportunity.max_amount inc' = None ->
        IncentiveCalculationEngine.calculate_incentive_value inc' 100000 size
        == 30000)
  /\ (forall inc',
        IncentiveOpportunity.percentage inc' = Some 100 ->
        IncentiveOpportunity.max_amount inc' = Some 5000 ->
        IncentiveCalculationEngine.calculate_incentive_value inc' 100000 size
        == 5000).
Proof.
  intros Hp Hnz Hexact _.
  assert (Hnone : forall i c p,
            IncentiveOpportunity.percentage i = Some p -> ~ p == 0 ->
            prints_exactly p ->
            IncentiveOpportunity.max_amount i = None ->
            IncentiveCalculationEngine.calculate_incentive_value i c size
            == c * (p / 100)).
  { intros i c p Hi Hz He Hm. unfold prints_exactly in He.
    unfold IncentiveCalculationEngine.calculate_incentive_value.
    rewrite (truthy_opt_Some _ _ Hi Hz), Hi, Hm. simpl.
    fold (percentage_rate p). rewrite He. reflexivity. }
  assert (Hcap : forall i c p cap,
            IncentiveOpportunity.percentage i = Some p -> ~ p == 0 ->
            prints_exactly p ->
            IncentiveOpportunity.max_amount i = Some cap -> ~ cap == 0 ->
            IncentiveCalculationEngine.calculate_incentive_value i c size
            == Qmin (c * (p / 100)) cap).
  { intros i c p cap Hi Hz He Hm Hc. unfold prints_exactly in He.
    unfold IncentiveCalculationEngine.calculate_incentive_value.
    rewrite (truthy_opt_Some _ _ Hi Hz), (truthy_opt_Some _ _ Hm Hc), Hi, Hm.
    simpl. fold (percentage_rate p). rewrite py_min_Qmin, He. reflexivity. }
  split; [apply Hnone; assumption |].
  split; [intros cap; apply Hcap; assumption |].
  split; [apply whole_percentage_prints_exactly |].
  split.
  - intros inc' Hi Hm.
    rewrite (Hnone inc' 100000 30 Hi); try assumption.
    + reflexivity.
    + intros H; discriminate H.
    + apply (whole_percentage_prints_exactly 30). lia.
  - intros inc' Hi Hm.
    rewrite (Hcap inc' 100000 100 5000 Hi); try assumption.
    + reflexivity.
    + intros H; discriminate H.
    + apply (whole_percentage_prints_exactly 100). lia.
    + intros H; discriminate H.
Qed.

Lemma C3_percentage_value_witness :
  IncentiveOpportunity.percentage LA_SOLAR_TAX_CREDIT_2024 = Some 25
  /\ ~ 25 == 0
  /\ prints_exactly 25
  /\ has_digits 28 (100000 * (25 / 100))
  /\ IncentiveCalculationEngine.calculate_incentive_value
       LA_SOLAR_TAX_CREDIT_2024 100000 None
     == Qmin (100000 * (25 / 100)) 12500.
Proof.
  assert (H : ~ 25 == 0) by (intros H; discriminate H).
  assert (He : prints_exactly 25) by (vm_compute; reflexivity).
  assert (Hd : has_digits 28 (100000 * (25 / 100))).
  { exists 25000%Z, 0%Z. split; [vm_compute; reflexivity | reflexivity]. }
  split; [reflexivity |]. split; [exact H |]. split; [exact He |].
  split; [exact Hd |].
  destruct (C3_percentage_value LA_SOLAR_TAX_CREDIT_2024 100000 None 25
              eq_refl H He Hd) as (_ & Hcap & _).
  apply Hcap; [reflexivity | intros H'; discriminate H'].
Defined.

(** C10: the branch of [calculate_incentive_value] is chosen by
    truthiness.  A percentage that is present but 0.0 is treated as no
    percentage at all; without a usable percentage, a project_size of 0 or
    an amount of 0 selects the flat-amount branch, whose value is the
    amount. *)
Theorem C10_truthiness_branches (inc : IncentiveOpportunity.t) (cost : Q)
    (size : option Q) :
  (forall pct,
     IncentiveOpportunity.percentage inc = Some pct -> pct == 0 ->
     IncentiveCalculationEngine.value_branch inc size <> PercentageBranch
     /\ IncentiveCalculationEngine.value_branch inc size
        = IncentiveCalculationEngine.value_branch
            (IncentiveOpportunity.set_percentage None inc) size
     /\ IncentiveCalculationEngine.calculate_incentive_value inc cost size
        = IncentiveCalculationEngine.calculate_incentive_value
            (IncentiveOpportunity.set_percentage None inc) cost size)
  /\ (truthy_opt (IncentiveOpportunity.percentage inc) = false ->
      (exists z, size = Some z /\ z == 0)
      \/ IncentiveOpportunity.amount inc == 0 ->
      IncentiveCalculationEngine.value_branch inc size = FlatBranch)
  /\ (IncentiveCalculationEngine.value_branch inc size = FlatBranch ->
      IncentiveCalculationEngine.calculate_incentive_value inc cost size
      == IncentiveOpportunity.amount inc)
  /\ IncentiveCalculationEngine.calculate_incentive_value
       zero_percentage_incentive 100000 (Some 50) == 1400
  /\ IncentiveCalculationEngine.calculate_incentive_value
       zero_percentage_incentive 100000 (Some 0) == 28.
Proof.
  split; [| split; [| split; [| split]]].
  - intros pct Hp Hz.
    unfold IncentiveCalculationEngine.value_branch,
      IncentiveCalculationEngine.calculate_incentive_value.
    rewrite (truthy_opt_zero _ _ Hp Hz). simpl.
    repeat split.
    destruct (truthy_opt size && truthy (IncentiveOpportunity.amount inc));
      discriminate.
  - intros Hp Hz. unfold IncentiveCalculationEngine.value_branch.
    rewrite Hp. destruct Hz as [(z & -> & Hz) | Hz].
    + simpl. apply truthy_false in Hz. rewrite Hz. reflexivity.
    + apply truthy_false in Hz. rewrite Hz, andb_false_r. reflexivity.
  - intros Hb. rewrite value_by_branch, Hb.
    destruct (truthy (IncentiveOpportunity.amount inc)) eqn:E.
    + reflexivity.
    + apply truthy_false in E. symmetry. exact E.
  - vm_compute. reflexivity.
  - vm_compute. reflexivity.
Qed.

Lemma C10_truthiness_branches_witness :
  IncentiveOpportunity.percentage zero_percentage_incentive = Some 0
  /\ 0 == 0
  /\ IncentiveCalculationEngine.value_branch zero_percentage_incentive
       (Some 50)
     <> PercentageBranch.
Proof.
  split; [reflexivity |]. split; [reflexivity |].
  destruct (C10_truthiness_branches zero_percentage_incentive 100000 (Some 50))
    as (H & _).
  apply (H 0 eq_refl). reflexivity.
Defined.

(** ** Strings *)

Lemma prefix_lower (a b : string) :
  String.prefix a b = true -> String.prefix (lower a) (lower b) = true.
Proof.
  revert b. induction a as [| x a IH]; intros b H.
  - destruct b; reflexivity.
  - destruct b as [| y b]; simpl in H; [discriminate |].
    destruct (ascii_dec x y) as [-> | Hne]; [| discriminate].
    simpl. destruct (ascii_dec (lower_ascii y) (lower_ascii y)) as [_ | N].
    + apply IH. exact H.
    + contradiction.
Qed.

Lemma str_in_cons (needle : string) (c : ascii) (hay : string) :
  str_in needle (String c hay)
  = if String.prefix needle (String c hay) then true else str_in needle hay.
Proof. reflexivity. Qed.

Lemma str_in_lower (needle hay : string) :
  str_in needle hay = true -> str_in (lower needle) (lower hay) = true.
Proof.
  induction hay as [| c hay IH].
  - destruct needle; simpl; [reflexivity | discriminate].
  - change (lower (String c hay)) with (String (lower_ascii c) (lower hay)).
    rewrite !str_in_cons.
    destruct (String.prefix needle (String c hay)) eqn:E; intros H.
    + apply prefix_lower in E.
      change (lower (String c hay))
        with (String (lower_ascii c) (lower hay)) in E.
      rewrite E. reflexivity.
    + rewrite (IH H).
      destruct (String.prefix (lower needle)
                  (String (lower_ascii c) (lower hay))); reflexivity.
Qed.

(** ** Eligibility *)

Section Eligibility.
Import IncentiveCalculationEngine.

(** The five rules under which a criterion counts, for a lower-cased
    project type and a building type. *)
Definition criterion_matches (project_type : string)
    (building_type : option string) (criterion : string) : bool :=
  let c := lower criterion in
  (str_in "solar" c && str_in "solar" project_type)
  || (str_in "wind" c && str_in "wind" project_type)
  || (str_in "energy efficiency" c && str_in "efficiency" project_type)
  || (str_in "commercial" c && opt_string_eqb building_type "commercial")
  || (str_in "residential" c && opt_string_eqb building_type "residential").

(** A criterion that mentions none of the five keywords. *)
Definition unlisted (criterion : string) : Prop :=
  let c := lower criterion in
  str_in "solar" c = false /\ str_in "wind" c = false
  /\ str_in "energy efficiency" c = false /\ str_in "commercial" c = false
  /\ str_in "residential" c = false.

Lemma criterion_step_matches pt bt n c :
  criterion_step pt bt n c = if criterion_matches pt bt c then S n else n.
Proof.
  unfold criterion_step, criterion_matches. cbv zeta.
  repeat match goal with
         | |- context [if ?b && ?b' then _ else _] =>
             destruct (b && b')%bool; simpl; try reflexivity
         end.
Qed.

Lemma unlisted_never_matches pt bt c :
  unlisted c -> criterion_matches pt bt c = false.
Proof.
  unfold unlisted, criterion_matches. cbv zeta.
  intros (-> & -> & -> & -> & ->). reflexivity.
Qed.

Lemma criteria_met_from pt bt cs n :
  fold_left (criterion_step pt bt) cs n
  = (n + List.length (List.filter (criterion_matches pt bt) cs))%nat.
Proof.
  revert n. induction cs as [| c cs IH]; intros n; simpl.
  - lia.
  - rewrite IH, criterion_step_matches.
    destruct (criterion_matches pt bt c); simpl; lia.
Qed.

Lemma criteria_met_positive pt bt cs :
  (0 <? fold_left (criterion_step pt bt) cs 0)%nat = true
  <-> exists c, In c cs /\ criterion_matches pt bt c = true.
Proof.
  rewrite criteria_met_from, Nat.ltb_lt. simpl. split.
  - intros H.
    destruct (List.filter (criterion_matches pt bt) cs) as [| c l] eqn:E;
      [simpl in H; lia |].
    exists c. apply List.filter_In. rewrite E. left. reflexivity.
  - intros (c & Hc). apply List.filter_In in Hc.
    destruct (List.filter (criterion_matches pt bt) cs);
      [destruct Hc | simpl; lia].
Qed.

Lemma check_eligibility_open today inc pd :
  past today (IncentiveOpportunity.application_deadline inc) = false ->
  past today (IncentiveOpportunity.project_completion_deadline inc) = false ->
  _check_eligibility today inc pd
  = (0 <? fold_left
            (criterion_step (lower (get (pd_project_type pd) ""))
               (pd_building_type pd))
            (IncentiveOpportunity.eligibility_criteria inc) 0)%nat.
Proof.
  intros H1 H2. unfold _check_eligibility. cbv zeta.
  rewrite H1, H2. reflexivity.
Qed.
End Eligibility.

(** A [project_data] dict that holds the key [project_type] only. *)
Definition typed_project (project_type : string) : ProjectData :=
  {| pd_project_id := None; pd_project_type := Some project_type;
     pd_building_type := None; pd_state := None; pd_city := None;
     pd_utility_provider := None; pd_project_cost := None;
     pd_project_size := None; pd_system_capacity_kw := None;
     pd_annual_production_kwh := None; pd_square_footage := None;
     pd_baseline_energy_usage := None; pd_projected_energy_usage := None;
     pd_total_workers := None; pd_local_workers := None;
     pd_total_hours := None; pd_incidents := None; pd_near_misses := None |}.

(** An incentive with a single criterion and no deadline. *)
Definition solar_only_incentive : IncentiveOpportunity.t :=
  IncentiveOpportunity.mk "SOLAR_ONLY" "Solar only" GRANT 1000 None None
    "ALL" None None ["Solar PV system installation"] None None None
    false true [].

(** The Florida solar rebate of the catalogue: applications closed on
    2024-12-31. *)
Definition FL_SOLAR_REBATE_2024 : IncentiveOpportunity.t :=
  IncentiveOpportunity.mk "FL_SOLAR_REBATE_2024"
    "Florida Solar Rebate Program" STATE_TAX_CREDIT 0 None (Some 20000)
    "FL" None None
    ["Florida resident"; "Solar PV system"; "System size 2kW minimum"]
    (Some (mkdate 2024 12 31)) None None true true [].

Lemma FL_SOLAR_REBATE_2024_in_catalogue :
  exists rest,
    IncentiveCalculationEngine._load_state_incentives !! "FL"
    = Some (FL_SOLAR_REBATE_2024 :: rest).
Proof. eexists. vm_compute. reflexivity. Qed.

(** The wind production tax credit of the catalogue: construction had to
    start by 2024-12-31. *)
Definition PTC_WIND_2024 : IncentiveOpportunity.t :=
  IncentiveOpportunity.mk "PTC_WIND_2024" "Wind Production Tax Credit"
    FEDERAL_TAX_CREDIT 28 None None "ALL" None None
    ["Wind energy facility"; "Construction begins before Jan 1, 2025"]
    None (Some (mkdate 2024 12 31)) None false true [].

Lemma PTC_WIND_2024_in_catalogue :
  In PTC_WIND_2024 IncentiveCalculationEngine._load_federal_incentives.
Proof. right. left. reflexivity. Qed.

(** C4: when no deadline rejects the incentive, it is eligible exactly
    when at least one criterion counts under one of the five rules;
    criteria that match no rule change nothing.  With the sole criterion
    "Solar PV system installation" a project type containing "solar" is
    eligible and "wind turbine retrofit" is not. *)
Theorem C4_or_semantics (today : date) (inc : IncentiveOpportunity.t)
    (pd : ProjectData) :
  IncentiveCalculationEngine.past today
    (IncentiveOpportunity.application_deadline inc) = false ->
  IncentiveCalculationEngine.past today
    (IncentiveOpportunity.project_completion_deadline inc) = false ->
  let pt := lower (get (pd_project_type pd) "") in
  let bt := pd_building_type pd in
  (IncentiveCalculationEngine._check_eligibility today inc pd = true
   <-> exists c, In c (IncentiveOpportunity.eligibility_criteria inc)
                 /\ criterion_matches pt bt c = true)
  /\ (forall c, unlisted c -> criterion_matches pt bt c = false)
  /\ (forall c, criterion_matches pt bt c = false ->
        IncentiveCalculationEngine._check_eligibility today
          (IncentiveOpportunity.set_eligibility_criteria
             (c :: IncentiveOpportunity.eligibility_criteria inc) inc) pd
        = IncentiveCalculationEngine._check_eligibility today inc pd)
  /\ (IncentiveOpportunity.eligibility_criteria inc
      = ["Solar PV system installation"] ->
      (forall t, pd_project_type pd = Some t -> str_in "solar" t = true ->
         IncentiveCalculationEngine._check_eligibility today inc pd = true)
      /\ (pd_project_type pd = Some "wind turbine retrofit" ->
          IncentiveCalculationEngine._check_eligibility today inc pd = false)).
Proof.
  intros H1 H2 pt bt.
  split; [| split; [| split]].
  - rewrite (check_eligibility_open _ _ _ H1 H2). apply criteria_met_positive.
  - intros c. apply unlisted_never_matches.
  - intros c Hc.
    rewrite (check_eligibility_open today inc pd H1 H2).
    rewrite check_eligibility_open by assumption.
    simpl. fold pt bt. rewrite criterion_step_matches, Hc. reflexivity.
  - intros Hcs. split.
    + intros t Ht Hs.
      rewrite (check_eligibility_open _ _ _ H1 H2), Hcs, Ht. simpl.
      rewrite criterion_step_matches. unfold criterion_matches. cbv zeta.
      apply (str_in_lower "solar") in Hs.
      change (lower "solar") with "solar" in Hs. rewrite Hs. reflexivity.
    + intros Ht.
      rewrite (check_eligibility_open _ _ _ H1 H2), Hcs, Ht. reflexivity.
Qed.

Lemma C4_or_semantics_witness :
  IncentiveCalculationEngine._check_eligibility (mkdate 2026 11 4)
    solar_only_incentive (typed_project "residential solar installation")
  = true
  /\ IncentiveCalculationEngine._check_eligibility (mkdate 2026 11 4)
       solar_only_incentive (typed_project "wind turbine retrofit")
     = false.
Proof.
  split.
  - destruct (C4_or_semantics (mkdate 2026 11 4) solar_only_incentive
                (typed_project "residential solar installation")
                eq_refl eq_refl) as (_ & _ & _ & H).
    destruct (H eq_refl) as (Hs & _).
    apply (Hs "residential solar installation"); reflexivity.
  - destruct (C4_or_semantics (mkdate 2026 11 4) solar_only_incentive
                (typed_project "wind turbine retrofit")
                eq_refl eq_refl) as (_ & _ & _ & H).
    destruct (H eq_refl) as (_ & Hw).
    apply Hw. reflexivity.
Defined.

(** C5: an incentive whose application deadline, or whose project
    completion deadline, is set and lies before today is ineligible,
    whatever criteria match. *)
Theorem C5_deadline_rejects (today : date) (inc : IncentiveOpportunity.t)
    (pd : ProjectData) :
  (exists dl, IncentiveOpportunity.application_deadline inc = Some dl
              /\ date_gtb today dl = true)
  \/ (exists dl, IncentiveOpportunity.project_completion_deadline inc = Some dl
                 /\ date_gtb today dl = true) ->
  IncentiveCalculationEngine._check_eligibility today inc pd = false.
Proof.
  unfold IncentiveCalculationEngine._check_eligibility. cbv zeta.
  intros [(dl & E & H) | (dl & E & H)]; rewrite E; simpl; rewrite H.
  - reflexivity.
  - destruct (IncentiveCalculationEngine.past today
                (IncentiveOpportunity.application_deadline inc));
      reflexivity.
Qed.

Lemma C5_deadline_rejects_witness :
  date_gtb (mkdate 2026 11 4) (mkdate 2024 12 31) = true
  /\ criterion_matches "residential solar installation" None
       "Solar PV system" = true
  /\ IncentiveCalculationEngine._check_eligibility (mkdate 2026 11 4)
       FL_SOLAR_REBATE_2024 (typed_project "residential solar installation")
     = false.
Proof.
  split; [reflexivity |]. split; [reflexivity |].
  apply C5_deadline_rejects. left.
  exists (mkdate 2024 12 31). split; reflexivity.
Defined.

(** C9: eligibility never looks at [project_start_deadline]; the wind
    production tax credit, whose start deadline of 2024-12-31 has passed,
    is still eligible for a wind project on 2026-11-04. *)
Theorem C9_start_deadline_ignored (today : date)
    (inc : IncentiveOpportunity.t) (pd : ProjectData) (d : option date) :
  IncentiveCalculationEngine._check_eligibility today
    (IncentiveOpportunity.set_project_start_deadline d inc) pd
  = IncentiveCalculationEngine._check_eligibility today inc pd
  /\ IncentiveOpportunity.project_start_deadline PTC_WIND_2024
     = Some (mkdate 2024 12 31)
  /\ date_gtb (mkdate 2026 11 4) (mkdate 2024 12 31) = true
  /\ IncentiveCalculationEngine._check_eligibility (mkdate 2026 11 4)
       PTC_WIND_2024 (typed_project "wind farm") = true.
Proof.
  repeat split.
Qed.

(** ** The integration engine *)

(** The two projects of the module's [main]. *)
Definition storm_project : ProjectData :=
  {| pd_project_id := Some "STORM_2024_MIAMI_001";
     pd_project_type := Some "storm restoration with solar installation";
     pd_building_type := Some "commercial";
     pd_state := Some "FL";
     pd_city := Some "Miami";
     pd_utility_provider := Some "Florida Power & Light";
     pd_project_cost := Some 250000;
     pd_project_size := Some 50;
     pd_system_capacity_kw := Some 50;
     pd_annual_production_kwh := Some 75000;
     pd_square_footage := Some 10000;
     pd_baseline_energy_usage := Some 120000;
     pd_projected_energy_usage := Some 80000;
     pd_total_workers := Some 15%Z;
     pd_local_workers := Some 12%Z;
     pd_total_hours := Some 3000;
     pd_incidents := Some 0%Z;
     pd_near_misses := Some 1%Z |}.

Definition residential_project : ProjectData :=
  {| pd_project_id := Some "RES_2024_TAMPA_001";
     pd_project_type := Some "residential solar installation";
     pd_building_type := Some "residential";
     pd_state := Some "FL";
     pd_city := Some "Tampa";
     pd_utility_provider := Some "TECO";
     pd_project_cost := Some 25000;
     pd_project_size := Some 8;
     pd_system_capacity_kw := Some 8;
     pd_annual_production_kwh := Some 12000;
     pd_square_footage := None;
     pd_baseline_energy_usage := None;
     pd_projected_energy_usage := None;
     pd_total_workers := Some 4%Z;
     pd_local_workers := Some 4%Z;
     pd_total_hours := Some 200;
     pd_incidents := Some 0%Z;
     pd_near_misses := Some 0%Z |}.

(** [del project_data['state']] *)
Definition del_state (pd : ProjectData) : ProjectData :=
  {| pd_project_id := pd_project_id pd;
     pd_project_type := pd_project_type pd;
     pd_building_type := pd_building_type pd;
     pd_state := None;
     pd_city := pd_city pd;
     pd_utility_provider := pd_utility_provider pd;
     pd_project_cost := pd_project_cost pd;
     pd_project_size := pd_project_size pd;
     pd_system_capacity_kw := pd_system_capacity_kw pd;
     pd_annual_production_kwh := pd_annual_production_kwh pd;
     pd_square_footage := pd_square_footage pd;
     pd_baseline_energy_usage := pd_baseline_energy_usage pd;
     pd_projected_energy_usage := pd_projected_energy_usage pd;
     pd_total_workers := pd_total_workers pd;
     pd_local_workers := pd_local_workers pd;
     pd_total_hours := pd_total_hours pd;
     pd_incidents := pd_incidents pd;
     pd_near_misses := pd_near_misses pd |}.

(** [project_data['total_workers'] = n] *)
Definition set_total_workers (n : Z) (pd : ProjectData) : ProjectData :=
  {| pd_project_id := pd_project_id pd;
     pd_project_type := pd_project_type pd;
     pd_building_type := pd_building_type pd;
     pd_state := pd_state pd;
     pd_city := pd_city pd;
     pd_utility_provider := pd_utility_provider pd;
     pd_project_cost := pd_project_cost pd;
     pd_project_size := pd_project_size pd;
     pd_system_capacity_kw := pd_system_capacity_kw pd;
     pd_annual_production_kwh := pd_annual_production_kwh pd;
     pd_square_footage := pd_square_footage pd;
     pd_baseline_energy_usage := pd_baseline_energy_usage pd;
     pd_projected_energy_usage := pd_projected_energy_usage pd;
     pd_total_workers := Some n;
     pd_local_workers := pd_local_workers pd;
     pd_total_hours := pd_total_hours pd;
     pd_incidents := pd_incidents pd;
     pd_near_misses := pd_near_misses pd |}.

Definition Qsum (l : list Q) : Q := fold_left Qplus l 0.

Lemma summary_fold (self : ESGIncentiveIntegrationEngine.t) (cost : Q)
    (size : option Q) (l : list IncentiveOpportunity.t)
    (acc : list IncentiveSummary * Q) :
  let res :=
    fold_left (ESGIncentiveIntegrationEngine.summary_step self cost size)
      l acc in
  List.map summary_value (fst res)
  = (List.map summary_value (fst acc)
     ++ List.map
          (fun i =>
             IncentiveCalculationEngine.calculate_incentive_value i cost size)
          l)%list
  /\ snd res
     = fold_left Qplus
         (List.map
            (fun i =>
               IncentiveCalculationEngine.calculate_incentive_value i cost
                 size) l)
         (snd acc).
Proof.
  cbv zeta. revert acc. induction l as [| i l IH]; intros acc; simpl.
  - rewrite List.app_nil_r. split; reflexivity.
  - destruct (IH (ESGIncentiveIntegrationEngine.summary_step self cost size
                    acc i)) as [H1 H2].
    rewrite H1, H2. simpl. rewrite List.map_app, <- List.app_assoc.
    split; reflexivity.
Qed.

(** C8: in every report, the net project cost is the cost minus the total
    incentive value; the ROI improvement is total / cost x 100 for a
    positive cost and 0 for a cost of 0, where no division takes place. *)
Theorem C8_report_arithmetic (now : Z) (today : date) (pd : ProjectData)
    (self self' : ESGIncentiveIntegrationEngine.t) (r : Report) :
  ESGIncentiveIntegrationEngine.process_project_esg_incentives now today pd
    self = (Ok r, self') ->
  let cost := get (pd_project_cost pd) 0 in
  net_project_cost r == cost - total_incentive_value r
  /\ (0 < cost ->
      roi_improvement r == total_incentive_value r / cost * 100)
  /\ (cost == 0 -> roi_improvement r == 0)
  /\ total_incentive_value r
     = Qsum (List.map summary_value (available_incentives r)).
Proof.
  unfold ESGIncentiveIntegrationEngine.process_project_esg_incentives, bind,
    read, lift_result, ret.
  destruct (ESGIncentiveIntegrationEngine._track_project_metrics now
              (pd_project_id pd) pd self) as [[[] | e] s1]; [| discriminate].
  destruct (IncentiveCalculationEngine.calculate_available_incentives
              (ESGIncentiveIntegrationEngine.incentive_calc s1) today pd)
    as [l | e]; [| discriminate].
  pose proof (summary_fold s1 (get (pd_project_cost pd) 0)
                (pd_project_size pd) l ([], 0)) as Hf.
  cbv zeta in Hf.
  destruct (fold_left _ l ([], 0)) as [summary total].
  destruct Hf as [Hm Ht]. simpl in Hm, Ht.
  intros H. injection H as <- _. cbv zeta. simpl.
  split; [reflexivity |]. split; [| split].
  - intros Hc. apply Qltb_lt in Hc. rewrite Hc. reflexivity.
  - intros Hc.
    destruct (Qltb 0 (get (pd_project_cost pd) 0)) eqn:E; [| reflexivity].
    apply Qltb_lt in E. rewrite Hc in E. exfalso. revert E. qcmp.
  - rewrite Hm, Ht. reflexivity.
Qed.

Lemma C8_report_arithmetic_witness :
  match fst (ESGIncentiveIntegrationEngine.process_project_esg_incentives 0
               (mkdate 2026 11 4) storm_project
               ESGIncentiveIntegrationEngine.init) with
  | Ok r =>
      total_incentive_value r == 75268
      /\ net_project_cost r == 250000 - total_incentive_value r
      /\ roi_improvement r == total_incentive_value r / 250000 * 100
  | Raise _ => False
  end.
Proof.
  destruct (ESGIncentiveIntegrationEngine.process_project_esg_incentives 0
              (mkdate 2026 11 4) storm_project
              ESGIncentiveIntegrationEngine.init) as [[r | e] s'] eqn:E.
  - simpl.
    assert (Ht : total_incentive_value r == 75268).
    { vm_compute in E. injection E as <- _. vm_compute. reflexivity. }
    destruct (C8_report_arithmetic _ _ _ _ _ _ E) as (Hn & Hr & _).
    split; [exact Ht |]. split; [exact Hn |].
    apply Hr. simpl. qcmp.
  - vm_compute in E. discriminate E.
Defined.

Lemma py_div_ok (a b : Q) : ~ b == 0 -> py_div a b = Ok (a / b).
Proof.
  intros H. unfold py_div.
  destruct (Qeq_bool b 0) eqn:E; [| reflexivity].
  apply Qeq_bool_iff in E. contradiction.
Qed.

Lemma inject_Z_nonzero (n : Z) : n <> 0%Z -> ~ inject_Z n == 0.
Proof.
  intros H E. apply H. unfold Qeq in E. simpl in E. lia.
Qed.

(** The integration engine returns a report whenever the project names
    its state and the denominators it divides by are not zero. *)
Lemma process_returns (now : Z) (today : date) (pd : ProjectData)
    (self : ESGIncentiveIntegrationEngine.t) (st : string) :
  pd_state pd = Some st ->
  get (pd_total_workers pd) 10%Z <> 0%Z ->
  ~ get (pd_total_hours pd) 2000 == 0 ->
  ~ get (pd_baseline_energy_usage pd) 100000 == 0 ->
  exists r self',
    ESGIncentiveIntegrationEngine.process_project_esg_incentives now today
      pd self = (Ok r, self').
Proof.
  intros Hs Hw Hh Hb.
  unfold ESGIncentiveIntegrationEngine.process_project_esg_incentives,
    ESGIncentiveIntegrationEngine._track_project_metrics,
    ESGIncentiveIntegrationEngine.on_environmental,
    ESGIncentiveIntegrationEngine.on_social,
    EnvironmentalTracker.track_renewable_energy,
    EnvironmentalTracker.track_energy_efficiency,
    SocialImpactTracker.track_local_hiring,
    SocialImpactTracker.track_safety_metrics,
    IncentiveCalculationEngine.calculate_available_incentives.
  rewrite Hs.
  rewrite (py_div_ok _ _ (inject_Z_nonzero _ Hw)), !(py_div_ok _ _ Hh),
    (py_div_ok _ _ Hb).
  destruct (str_in "solar" _); destruct (str_in "energy efficiency" _);
    unfold bind, zoom, lift_result, ret, read, modify,
      EnvironmentalTracker.append, SocialImpactTracker.extend; simpl;
    repeat match goal with
           | |- context [if ?b then _ else _] => destruct b; simpl
           end;
    repeat match goal with
           | |- context [let '(_, _) := ?p in _] => destruct p; simpl
           end;
    eauto.
Qed.

(** C2, evaluated where it fails: [calculate_available_incentives] raises
    AttributeError on every project without the key [state], and the
    trackers raise ZeroDivisionError on a zero denominator; both
    exceptions leave [process_project_esg_incentives] uncaught. *)
Theorem C2_uncaught_exceptions :
  (forall self today pd,
     IncentiveCalculationEngine.calculate_available_incentives self today
       (del_state pd) = Raise AttributeError)
  /\ (forall now pid local_workers self,
        fst (SocialImpactTracker.track_local_hiring now pid 0 local_workers
               self) = Raise ZeroDivisionError)
  /\ (forall now pid diverted_waste self,
        fst (EnvironmentalTracker.track_waste_diversion now pid 0
               diverted_waste self) = Raise ZeroDivisionError)
  /\ fst (ESGIncentiveIntegrationEngine.process_project_esg_incentives 0
            (mkdate 2026 11 4) (del_state storm_project)
            ESGIncentiveIntegrationEngine.init) = Raise AttributeError
  /\ fst (ESGIncentiveIntegrationEngine.process_project_esg_incentives 0
            (mkdate 2026 11 4) (set_total_workers 0 storm_project)
            ESGIncentiveIntegrationEngine.init) = Raise ZeroDivisionError.
Proof.
  split; [| split; [| split; [| split]]].
  - reflexivity.
  - reflexivity.
  - reflexivity.
  - vm_compute. reflexivity.
  - vm_compute. reflexivity.
Qed.

(** The residential project of [main]: the federal 30 percent solar credit
    is the only incentive left on 2026-11-04, worth 7500 of the 25000. *)
Lemma residential_project_report :
  match fst (ESGIncentiveIntegrationEngine.process_project_esg_incentives 0
               (mkdate 2026 11 4) residential_project
               ESGIncentiveIntegrationEngine.init) with
  | Ok r =>
      List.map summary_name (available_incentives r)
      = ["Solar Investment Tax Credit"]
      /\ total_incentive_value r == 7500
      /\ net_project_cost r == 17500
      /\ roi_improvement r == 30
      /\ ESGScore.certification_level (esg_score r) = "Bronze"
  | Raise _ => False
  end.
Proof.
  vm_compute. repeat split.
Qed.

(** * Further properties of the engine *)

(** ** The peer percentile *)

Lemma py_max_cases (a b : Q) :
  (a < b /\ py_max a b = b) \/ (b <= a /\ py_max a b = a).
Proof.
  unfold py_max. destruct (Qltb a b) eqn:E.
  - left. apply Qltb_lt in E. auto.
  - right. apply Qltb_ge in E. auto.
Qed.

Lemma py_min_mono (c a b : Q) : a <= b -> py_min c a <= py_min c b.
Proof.
  intros H.
  destruct (py_min_cases c a) as [[? ->] | [? ->]];
    destruct (py_min_cases c b) as [[? ->] | [? ->]]; lra.
Qed.

(** X1: The peer percentile of every score lies between 5 and 95; strictly
    inside that band it is the overall score plus a tenth of it. *)
Theorem peer_percentile_band (self : ESGScoringEngine.t) (now : Z)
    (pid : option string) :
  let s := ESGScoringEngine.calculate_esg_score self now pid in
  let raw := ESGScore.overall_score s + ESGScore.overall_score s * (1 # 10) in
  5 <= ESGScore.peer_percentile s
  /\ ESGScore.peer_percentile s <= 95
  /\ (raw <= 5 -> ESGScore.peer_percentile s == 5)
  /\ (5 <= raw -> raw <= 95 -> ESGScore.peer_percentile s == raw)
  /\ (95 <= raw -> ESGScore.peer_percentile s == 95).
Proof.
  cbv zeta. unfold ESGScoringEngine.calculate_esg_score.
  cbn [ESGScore.peer_percentile ESGScore.overall_score].
  set (o := _ + _ * (25 # 100)).
  destruct (py_max_cases 5 (o + o * (1 # 10))) as [[H1 ->] | [H1 ->]];
    [destruct (py_min_cases 95 (o + o * (1 # 10))) as [[H2 ->] | [H2 ->]]
    | destruct (py_min_cases 95 5) as [[H2 ->] | [H2 ->]]];
    repeat split; intros; lra.
Qed.

Lemma peer_percentile_band_witness :
  ESGScore.peer_percentile
    (ESGScoringEngine.calculate_esg_score solar_engine 0 (Some "P1"))
  == 6248 # 100.
Proof.
  destruct (peer_percentile_band solar_engine 0 (Some "P1"))
    as (_ & _ & _ & H & _).
  rewrite H; vm_compute; try reflexivity; discriminate.
Defined.

(** ** Scores and the metric log *)

Lemma metrics_of_app pid l l' :
  ESGScoringEngine.metrics_of pid (l ++ l')
  = (ESGScoringEngine.metrics_of pid l
     ++ ESGScoringEngine.metrics_of pid l')%list.
Proof. apply List.filter_app. Qed.

Lemma metrics_of_all pid l :
  List.Forall (fun m => ESGMetric.project_id m = pid) l ->
  ESGScoringEngine.metrics_of pid l = l.
Proof.
  unfold ESGScoringEngine.metrics_of.
  induction 1 as [| m l Hm _ IH]; simpl; [reflexivity |].
  rewrite (proj2 (opt_string_eq_true _ _) Hm), IH. reflexivity.
Qed.

(** X2: Metrics recorded for other projects never change the score of a
    project: the score of [pid] is the same after any metrics of other
    projects have been appended to the three trackers. *)
Theorem score_ignores_other_projects (self : ESGScoringEngine.t) (now : Z)
    (pid : option string) (le ls lg : list ESGMetric.t)
    (cc : gmap (option string) CarbonCredit) :
  none_for pid le -> none_for pid ls -> none_for pid lg ->
  ESGScoringEngine.calculate_esg_score
    (ESGScoringEngine.mk
       (EnvironmentalTracker.mk
          (EnvironmentalTracker.metrics
             (ESGScoringEngine.environmental_tracker self) ++ le) cc)
       (SocialImpactTracker.mk
          (SocialImpactTracker.metrics
             (ESGScoringEngine.social_tracker self) ++ ls))
       (GovernanceTracker.mk
          (GovernanceTracker.metrics
             (ESGScoringEngine.governance_tracker self) ++ lg)))
    now pid
  = ESGScoringEngine.calculate_esg_score self now pid.
Proof.
  intros He Hs Hg. unfold ESGScoringEngine.calculate_esg_score. simpl.
  rewrite !metrics_of_app.
  rewrite (metrics_of_none _ _ He), (metrics_of_none _ _ Hs),
    (metrics_of_none _ _ Hg), !List.app_nil_r.
  reflexivity.
Qed.

(** A metric of project P1, as [track_waste_diversion] records it. *)
Definition p1_waste_metric : ESGMetric.t :=
  ESGMetric.mk ENVIRONMENTAL "waste_diversion_rate" 80 "percentage" 0
    (Some "P1") "waste_management_receipts" true None.

Lemma score_ignores_other_projects_witness :
  none_for (Some "P2") [p1_waste_metric]
  /\ ESGScoringEngine.calculate_esg_score
       (ESGScoringEngine.mk
          (EnvironmentalTracker.mk
             (EnvironmentalTracker.metrics
                (ESGScoringEngine.environmental_tracker solar_engine)
              ++ [p1_waste_metric]) ∅)
          (SocialImpactTracker.mk
             (SocialImpactTracker.metrics
                (ESGScoringEngine.social_tracker solar_engine) ++ []))
          (GovernanceTracker.mk
             (GovernanceTracker.metrics
                (ESGScoringEngine.governance_tracker solar_engine) ++ [])))
       0 (Some "P2")
     = ESGScoringEngine.calculate_esg_score solar_engine 0 (Some "P2").
Proof.
  assert (H : none_for (Some "P2") [p1_waste_metric]).
  { intros m [<- | []]. simpl. discriminate. }
  split; [exact H |].
  apply score_ignores_other_projects; [exact H | |]; intros m [].
Defined.

(** X3: Recording one more metric with a non-negative value never lowers a
    category score. *)
Theorem score_grows_with_log (l : list ESGMetric.t) (m : ESGMetric.t) :
  nonneg_value m ->
  ESGScoringEngine._calculate_environmental_score l
  <= ESGScoringEngine._calculate_environmental_score (l ++ [m])
  /\ ESGScoringEngine._calculate_social_score l
     <= ESGScoringEngine._calculate_social_score (l ++ [m])
  /\ ESGScoringEngine._calculate_governance_score l
     <= ESGScoringEngine._calculate_governance_score (l ++ [m]).
Proof.
  intros Hm.
  pose proof environmental_step_grows as He.
  pose proof social_step_grows as Hs.
  pose proof governance_step_grows as Hg.
  unfold ESGScoringEngine._calculate_environmental_score,
    ESGScoringEngine._calculate_social_score,
    ESGScoringEngine._calculate_governance_score.
  destruct l as [| m0 l].
  - simpl. repeat split; apply py_min_glb; auto; lra.
  - change ((m0 :: l) ++ [m])%list with (m0 :: (l ++ [m]))%list.
    cbn [fold_left]. rewrite !List.fold_left_app. cbn [fold_left].
    repeat split; apply py_min_mono; auto.
Qed.

Lemma score_grows_with_log_witness :
  nonneg_value p1_waste_metric
  /\ ESGScoringEngine._calculate_environmental_score []
     <= ESGScoringEngine._calculate_environmental_score
          ([] ++ [p1_waste_metric]).
Proof.
  assert (H : nonneg_value p1_waste_metric) by (unfold nonneg_value; simpl; qcmp).
  split; [exact H |].
  apply (score_grows_with_log [] p1_waste_metric H).
Defined.

(** ** What a tracker call does to the log *)

Section TrackerOutcomes.
Context {T : Type} (log : T -> list ESGMetric.t).

(** The call raised ZeroDivisionError and recorded nothing. *)
Definition fails_clean {A} (run : result A * T) (self : T) : Prop :=
  run = (Raise ZeroDivisionError, self).

(** The call returned one metric of project [pid] and category [cat], and
    appended exactly that metric to the log. *)
Definition records_one (run : result ESGMetric.t * T) (self : T)
    (pid : option string) (cat : ESGCategory) : Prop :=
  exists m,
    fst run = Ok m
    /\ log (snd run) = (log self ++ [m])%list
    /\ ESGMetric.project_id m = pid
    /\ ESGMetric.category m = cat.

(** The call returned metrics with the names [names], all of project
    [pid] and category [cat], and appended exactly those to the log. *)
Definition records_named (run : result (list ESGMetric.t) * T) (self : T)
    (pid : option string) (cat : ESGCategory) (names : list string) : Prop :=
  exists ms,
    fst run = Ok ms
    /\ log (snd run) = (log self ++ ms)%list
    /\ List.map ESGMetric.metric_name ms = names
    /\ List.Forall
         (fun m => ESGMetric.project_id m = pid /\ ESGMetric.category m = cat)
         ms.
End TrackerOutcomes.

Lemma Qeq_bool_inject_Z (n : Z) : Qeq_bool (inject_Z n) 0 = (n =? 0)%Z.
Proof.
  unfold Qeq_bool, inject_Z. simpl. rewrite Z.mul_1_r.
  destruct n; reflexivity.
Qed.

(** X4: Each method of the environmental tracker either divides by a zero
    baseline (or zero total waste), raises ZeroDivisionError and leaves the
    log as it was, or appends exactly the metric it returns after the
    metrics recorded before; [track_renewable_energy] never fails. *)
Theorem environmental_tracker_outcomes (now : Z) (pid : option string)
    (self : EnvironmentalTracker.t) (building_type system_type : string)
    (x y z : Q) :
  (if Qeq_bool y 0
   then fails_clean
          (EnvironmentalTracker.track_energy_efficiency now pid
             building_type x y z self) self
   else records_one EnvironmentalTracker.metrics
          (EnvironmentalTracker.track_energy_efficiency now pid
             building_type x y z self) self pid ENVIRONMENTAL)
  /\ records_one EnvironmentalTracker.metrics
       (EnvironmentalTracker.track_renewable_energy now pid system_type x y
          self) self pid ENVIRONMENTAL
  /\ (if Qeq_bool x 0
      then fails_clean
             (EnvironmentalTracker.track_water_efficiency now pid x y self)
             self
      else records_one EnvironmentalTracker.metrics
             (EnvironmentalTracker.track_water_efficiency now pid x y self)
             self pid ENVIRONMENTAL)
  /\ (if Qeq_bool x 0
      then fails_clean
             (EnvironmentalTracker.track_waste_diversion now pid x y self)
             self
      else records_one EnvironmentalTracker.metrics
             (EnvironmentalTracker.track_waste_diversion now pid x y self)
             self pid ENVIRONMENTAL).
Proof.
  unfold fails_clean, records_one,
    EnvironmentalTracker.track_energy_efficiency,
    EnvironmentalTracker.track_renewable_energy,
    EnvironmentalTracker.track_water_efficiency,
    EnvironmentalTracker.track_waste_diversion,
    EnvironmentalTracker.append, bind, lift_result, modify, ret, py_div.
  split; [| split; [| split]].
  - destruct (Qeq_bool y 0); [reflexivity |].
    destruct (Qltb 0 _); simpl; eexists; repeat split.
  - simpl. eexists; repeat split.
  - destruct (Qeq_bool x 0); [reflexivity |].
    simpl. eexists; repeat split.
  - destruct (Qeq_bool x 0); [reflexivity |].
    simpl. eexists; repeat split.
Qed.

(** An integer that converts to a float and, divided by a non-zero
    integer, gives a float: its absolute value is below 2^1023. *)
Definition in_float_range (n : Z) : Prop := (Z.abs n < 2 ^ 1023)%Z.

(** X5: For worker, incident and near-miss counts within the float range,
    each method of the social tracker either divides by zero workers (or
    zero hours), raises ZeroDivisionError and records nothing, or appends
    exactly the metrics it returns: one for local hiring and
    apprenticeship, the three diversity rates, the incident and near-miss
    rates. *)
Theorem social_tracker_outcomes (now : Z) (pid : option string)
    (self : SocialImpactTracker.t) (total a b c : Z) (hours h : Q) :
  in_float_range a -> in_float_range b -> in_float_range c ->
  (if (total =? 0)%Z
   then fails_clean
          (SocialImpactTracker.track_local_hiring now pid total a self) self
   else records_one SocialImpactTracker.metrics
          (SocialImpactTracker.track_local_hiring now pid total a self)
          self pid SOCIAL)
  /\ (if (total =? 0)%Z
      then fails_clean
             (SocialImpactTracker.track_diversity_hiring now pid total a b c
                self) self
      else records_named SocialImpactTracker.metrics
             (SocialImpactTracker.track_diversity_hiring now pid total a b c
                self) self pid SOCIAL
             ["minority_hire_rate"; "women_hire_rate"; "veteran_hire_rate"])
  /\ (if Qeq_bool hours 0
      then fails_clean
             (SocialImpactTracker.track_apprenticeship_programs now pid
                hours h self) self
      else records_one SocialImpactTracker.metrics
             (SocialImpactTracker.track_apprenticeship_programs now pid
                hours h self) self pid SOCIAL)
  /\ (if Qeq_bool hours 0
      then fails_clean
             (SocialImpactTracker.track_safety_metrics now pid hours a b
                self) self
      else records_named SocialImpactTracker.metrics
             (SocialImpactTracker.track_safety_metrics now pid hours a b
                self) self pid SOCIAL
             ["osha_incident_rate"; "near_miss_rate"]).
Proof.
  intros _ _ _.
  unfold fails_clean, records_one, records_named,
    SocialImpactTracker.track_local_hiring,
    SocialImpactTracker.track_diversity_hiring,
    SocialImpactTracker.track_apprenticeship_programs,
    SocialImpactTracker.track_safety_metrics,
    SocialImpactTracker.extend, bind, lift_result, modify, ret, py_div.
  rewrite Qeq_bool_inject_Z.
  split; [| split; [| split]].
  - destruct (total =? 0)%Z; [reflexivity |].
    simpl. eexists; repeat split.
  - destruct (total =? 0)%Z; [reflexivity |].
    simpl. eexists; repeat split; repeat constructor.
  - destruct (Qeq_bool hours 0); [reflexivity |].
    simpl. eexists; repeat split.
  - destruct (Qeq_bool hours 0); [reflexivity |].
    simpl. eexists; repeat split; repeat constructor.
Qed.

Lemma in_float_range_small (n : Z) :
  (Z.abs n < 2 ^ 53)%Z -> in_float_range n.
Proof.
  unfold in_float_range. intros H.
  assert ((2 ^ 53 < 2 ^ 1023)%Z) by (apply Z.pow_lt_mono_r; lia).
  lia.
Qed.

Lemma social_tracker_outcomes_witness :
  records_one SocialImpactTracker.metrics
    (SocialImpactTracker.track_local_hiring 0 (Some "P1") 15 12
       SocialImpactTracker.init)
    SocialImpactTracker.init (Some "P1") SOCIAL
  /\ fails_clean
       (SocialImpactTracker.track_safety_metrics 0 (Some "P1") 0 3 1
          SocialImpactTracker.init)
       SocialImpactTracker.init.
Proof.
  assert (H12 : in_float_range 12) by (apply in_float_range_small; simpl; lia).
  assert (H3 : in_float_range 3) by (apply in_float_range_small; simpl; lia).
  assert (H1 : in_float_range 1) by (apply in_float_range_small; simpl; lia).
  split.
  - destruct (social_tracker_outcomes 0 (Some "P1") SocialImpactTracker.init
                15 12 3 1 3000 100 H12 H3 H1) as (H & _).
    exact H.
  - destruct (social_tracker_outcomes 0 (Some "P1") SocialImpactTracker.init
                15 3 1 1 0 100 H3 H1 H1) as (_ & _ & _ & H).
    exact H.
Defined.

(** X6: The governance tracker never fails: [track_compliance_scores] appends
    the permit, safety and environmental compliance metrics in that order,
    with the scores it was given, and [track_certification_status] appends
    one metric whose value is the number of certifications. *)
Theorem governance_tracker_outcomes (now : Z) (pid : option string)
    (self : GovernanceTracker.t) (state : string) (p s e : Q)
    (certifications : list string) :
  (exists ms,
     GovernanceTracker.track_compliance_scores now pid state p s e self
     = (Ok ms, GovernanceTracker.mk (GovernanceTracker.metrics self ++ ms))
     /\ List.map (fun m => (ESGMetric.metric_name m, ESGMetric.value m)) ms
        = [("permit_compliance", p); ("safety_compliance", s);
           ("environmental_compliance", e)]
     /\ List.Forall
          (fun m => ESGMetric.project_id m = pid
                    /\ ESGMetric.category m = GOVERNANCE) ms)
  /\ (exists m,
        GovernanceTracker.track_certification_status now pid certifications
          self
        = (Ok m, GovernanceTracker.mk (GovernanceTracker.metrics self ++ [m]))
        /\ ESGMetric.metric_name m = "certification_count"
        /\ ESGMetric.value m
           = inject_Z (Z.of_nat (List.length certifications))
        /\ ESGMetric.project_id m = pid
        /\ ESGMetric.category m = GOVERNANCE).
Proof.
  split.
  - eexists. split; [reflexivity |]. split; [reflexivity |].
    repeat constructor.
  - eexists. repeat split.
Qed.

(** ** The values the trackers record *)

Lemma share_in_range (part whole : Q) :
  0 < whole -> 0 <= part -> part <= whole -> in_range (part / whole * 100).
Proof.
  intros Hw Hp Hle. unfold in_range.
  assert (H0 : 0 <= part / whole) by (apply Qle_shift_div_l; lra).
  assert (H1 : part / whole <= 1) by (apply Qle_shift_div_r; lra).
  split; lra.
Qed.

Lemma py_div_pos (a b : Q) : 0 < b -> py_div a b = Ok (a / b).
Proof. intros H. apply py_div_ok. lra. Qed.

Lemma inject_Z_pos (n : Z) : (0 < n)%Z -> 0 < inject_Z n.
Proof. intros H. unfold Qlt. simpl. lia. Qed.

Lemma inject_Z_le (a b : Z) : (a <= b)%Z -> inject_Z a <= inject_Z b.
Proof. intros H. unfold Qle. simpl. lia. Qed.

(** The value of the metric a call returned, if it returned one. *)
Definition returned_in_range {T} (run : result ESGMetric.t * T) : Prop :=
  exists m, fst run = Ok m /\ in_range (ESGMetric.value m).

(** X7: A rate is recorded as a percentage between 0 and 100 whenever the
    part counted is between 0 and a positive whole: diverted waste, local
    workers, apprentice hours, and each of the three diversity groups. *)
Theorem share_rates_in_range (now : Z) (pid : option string)
    (whole part : Q) (total a b c : Z)
    (env : EnvironmentalTracker.t) (soc : SocialImpactTracker.t) :
  0 < whole -> 0 <= part -> part <= whole ->
  (0 < total)%Z -> (0 <= a <= total)%Z -> (0 <= b <= total)%Z ->
  (0 <= c <= total)%Z ->
  returned_in_range
    (EnvironmentalTracker.track_waste_diversion now pid whole part env)
  /\ returned_in_range
       (SocialImpactTracker.track_apprenticeship_programs now pid whole part
          soc)
  /\ returned_in_range
       (SocialImpactTracker.track_local_hiring now pid total a soc)
  /\ (exists ms,
        fst (SocialImpactTracker.track_diversity_hiring now pid total a b c
               soc) = Ok ms
        /\ List.Forall (fun m => in_range (ESGMetric.value m)) ms).
Proof.
  intros Hw Hp Hle Ht Ha Hb Hc.
  pose proof (inject_Z_pos _ Ht) as Ht'.
  assert (Hz : forall n, (0 <= n <= total)%Z ->
                 in_range (inject_Z n / inject_Z total * 100)).
  { intros n Hn. apply share_in_range; [exact Ht' | |].
    - change 0 with (inject_Z 0). apply inject_Z_le. lia.
    - apply inject_Z_le. lia. }
  unfold returned_in_range,
    EnvironmentalTracker.track_waste_diversion,
    SocialImpactTracker.track_apprenticeship_programs,
    SocialImpactTracker.track_local_hiring,
    SocialImpactTracker.track_diversity_hiring.
  rewrite !(py_div_pos _ _ Hw), !(py_div_pos _ _ Ht').
  repeat split.
  - eexists. split; [reflexivity |]. simpl.
    apply share_in_range; assumption.
  - eexists. split; [reflexivity |]. simpl.
    apply share_in_range; assumption.
  - eexists. split; [reflexivity |]. simpl. apply Hz. exact Ha.
  - eexists. split; [reflexivity |].
    repeat constructor; simpl; apply Hz; assumption.
Qed.

Lemma share_rates_in_range_witness :
  returned_in_range
    (SocialImpactTracker.track_local_hiring 0 (Some "P1") 15 12
       SocialImpactTracker.init).
Proof.
  assert (H1 : 0 < 100) by qcmp.
  assert (H2 : 0 <= 80) by qcmp.
  assert (H3 : 80 <= 100) by qcmp.
  destruct (share_rates_in_range 0 (Some "P1") 100 80 15 12 3 1
              EnvironmentalTracker.init SocialImpactTracker.init
              H1 H2 H3 ltac:(lia) ltac:(lia) ltac:(lia) ltac:(lia))
    as (_ & _ & H & _).
  exact H.
Defined.

(** X8: Energy and water improvements are recorded as the saving in percent
    of a positive baseline: between 0 and 100 when the new usage lies
    between 0 and the baseline, and negative when usage went up. *)
Theorem saving_rates_sign (now : Z) (pid : option string)
    (building_type : string) (square_footage baseline usage : Q)
    (env : EnvironmentalTracker.t) :
  0 < baseline ->
  exists e w,
    fst (EnvironmentalTracker.track_energy_efficiency now pid building_type
           square_footage baseline usage env) = Ok e
    /\ fst (EnvironmentalTracker.track_water_efficiency now pid baseline
              usage env) = Ok w
    /\ ESGMetric.value e == (baseline - usage) / baseline * 100
    /\ ESGMetric.value w == ESGMetric.value e
    /\ (0 <= usage -> usage <= baseline -> in_range (ESGMetric.value e))
    /\ (baseline < usage -> ESGMetric.value e < 0).
Proof.
  intros Hb.
  unfold EnvironmentalTracker.track_energy_efficiency,
    EnvironmentalTracker.track_water_efficiency.
  rewrite !(py_div_pos _ _ Hb).
  unfold bind, lift_result, EnvironmentalTracker.append, modify, ret.
  destruct (Qltb 0 _); simpl;
    (eexists; eexists; split; [reflexivity |]; split; [reflexivity |];
     simpl; split; [reflexivity |]; split; [reflexivity |]; split;
     [ intros H0 H1; apply share_in_range; lra
     | intros H;
       assert ((baseline - usage) / baseline < 0)
         by (apply Qlt_shift_div_r; lra);
       lra ]).
Qed.

Lemma saving_rates_sign_witness :
  match fst (EnvironmentalTracker.track_energy_efficiency 0 (Some "P1")
               "commercial" 1000 100 500 EnvironmentalTracker.init) with
  | Ok e => ESGMetric.value e < 0
  | Raise _ => False
  end.
Proof.
  assert (Hb : 0 < 100) by qcmp.
  destruct (saving_rates_sign 0 (Some "P1") "commercial" 1000 100 500
              EnvironmentalTracker.init Hb)
    as (e & w & He & _ & _ & _ & _ & Hneg).
  rewrite He. apply Hneg. qcmp.
Defined.

(** ** Carbon credits *)

(** The carbon offset of an energy-efficiency record, in tons. *)
Definition energy_carbon_offset (square_footage baseline usage : Q) : Q :=
  (baseline - usage) * (7 # 10000) * square_footage / 1000.

(** X9: After a successful [track_energy_efficiency], a positive carbon offset
    is stored as the project's credit, priced at 50 per ton, replacing
    any earlier credit of that project and leaving the credits of other
    projects alone; without a positive offset the credits stay as they
    were. *)
Theorem carbon_credit_recorded (now : Z) (pid : option string)
    (building_type : string) (square_footage baseline usage : Q)
    (self : EnvironmentalTracker.t) :
  ~ baseline == 0 ->
  let self' :=
    snd (EnvironmentalTracker.track_energy_efficiency now pid building_type
           square_footage baseline usage self) in
  let offset := energy_carbon_offset square_footage baseline usage in
  (0 < offset ->
   EnvironmentalTracker.carbon_credits self' !! pid
   = Some {| tons_offset := offset; market_value_per_ton := 50;
             total_value := offset * 50; retirement_date := None |}
   /\ forall other, other <> pid ->
        EnvironmentalTracker.carbon_credits self' !! other
        = EnvironmentalTracker.carbon_credits self !! other)
  /\ (offset <= 0 ->
      EnvironmentalTracker.carbon_credits self'
      = EnvironmentalTracker.carbon_credits self).
Proof.
  intros Hb. cbv zeta.
  unfold EnvironmentalTracker.track_energy_efficiency, energy_carbon_offset.
  rewrite (py_div_ok _ _ Hb).
  unfold bind, lift_result, EnvironmentalTracker.append, modify, ret.
  destruct (Qltb 0 _) eqn:E; simpl; split; intros H.
  - split; [apply lookup_insert_eq |].
    intros other Hne. apply lookup_insert_ne. congruence.
  - apply Qltb_lt in E. lra.
  - apply Qltb_ge in E. lra.
  - reflexivity.
Qed.

Lemma carbon_credit_recorded_witness :
  option_map total_value
    (EnvironmentalTracker.carbon_credits
       (snd (EnvironmentalTracker.track_energy_efficiency 0 (Some "P1")
               "commercial" 10000 120000 80000 EnvironmentalTracker.init))
     !! Some "P1")
  = Some (energy_carbon_offset 10000 120000 80000 * 50).
Proof.
  assert (Hb : ~ 120000 == 0) by (intros H; discriminate H).
  destruct (carbon_credit_recorded 0 (Some "P1") "commercial" 10000 120000
              80000 EnvironmentalTracker.init Hb) as (H & _).
  destruct H as (-> & _); [vm_compute; reflexivity | reflexivity].
Defined.

(** The other methods of the environmental tracker never touch the carbon
    credits. *)
Lemma carbon_credits_untouched (now : Z) (pid : option string)
    (system_type : string) (x y : Q) (self : EnvironmentalTracker.t) :
  EnvironmentalTracker.carbon_credits
    (snd (EnvironmentalTracker.track_renewable_energy now pid system_type
            x y self))
  = EnvironmentalTracker.carbon_credits self
  /\ EnvironmentalTracker.carbon_credits
       (snd (EnvironmentalTracker.track_water_efficiency now pid x y self))
     = EnvironmentalTracker.carbon_credits self
  /\ EnvironmentalTracker.carbon_credits
       (snd (EnvironmentalTracker.track_waste_diversion now pid x y self))
     = EnvironmentalTracker.carbon_credits self.
Proof.
  unfold EnvironmentalTracker.track_renewable_energy,
    EnvironmentalTracker.track_water_efficiency,
    EnvironmentalTracker.track_waste_diversion,
    bind, lift_result, EnvironmentalTracker.append, modify, ret, py_div.
  destruct (Qeq_bool x 0); repeat split.
Qed.

(** ** Which incentives are returned *)

Section AvailableIncentives.
Import IncentiveCalculationEngine.

(** The incentive is listed in the table under the key. *)
Definition listed_at (table : gmap string (list IncentiveOpportunity.t))
    (key : string) (i : IncentiveOpportunity.t) : Prop :=
  exists l, table !! key = Some l /\ In i l.

(** The keys under which a project is looked up in the local and the
    utility table. *)
Definition locality_key (pd : ProjectData) (st : string) : string :=
  replace_char " " "_" (lower (get (pd_city pd) "")) ++ "_" ++ lower st.

Definition utility_key (pd : ProjectData) : string :=
  replace_char "&" ""
    (replace_char " " "" (lower (get (pd_utility_provider pd) ""))).

Lemma eligible_among_In today pd l i :
  In i (eligible_among today pd l)
  <-> In i l /\ _check_eligibility today i pd = true.
Proof. apply List.filter_In. Qed.

Lemma eligible_at_In today pd table key i :
  In i (eligible_at today pd table key)
  <-> listed_at table key i /\ _check_eligibility today i pd = true.
Proof.
  unfold eligible_at, listed_at. destruct (table !! key) as [l |].
  - rewrite eligible_among_In. split.
    + intros [H1 H2]. split; [exists l; auto | exact H2].
    + intros [(l' & E & H1) H2]. injection E as <-. auto.
  - split; [intros [] | intros [(l' & E & _) _]; discriminate].
Qed.

(** X10: For a project that names its state, [calculate_available_incentives]
    returns a list that starts with the eligible federal incentives and
    holds exactly the eligible incentives listed as federal, under the
    state, under the locality key or under the utility key. *)
Theorem available_incentives_exact (self : IncentiveCalculationEngine.t)
    (today : date) (pd : ProjectData) (st : string) :
  pd_state pd = Some st ->
  exists rest,
    calculate_available_incentives self today pd
    = Ok (eligible_among today pd (federal_incentives self) ++ rest)%list
    /\ forall i,
         In i (eligible_among today pd (federal_incentives self) ++ rest)
         <-> _check_eligibility today i pd = true
             /\ (In i (federal_incentives self)
                 \/ listed_at (state_incentives self) st i
                 \/ listed_at (local_incentives self) (locality_key pd st) i
                 \/ listed_at (utility_incentives self) (utility_key pd) i).
Proof.
  intros Hs. unfold calculate_available_incentives. rewrite Hs.
  fold (locality_key pd st). fold (utility_key pd).
  eexists. rewrite <- !List.app_assoc. split; [reflexivity |].
  intros i. rewrite !List.in_app_iff, eligible_among_In, !eligible_at_In.
  tauto.
Qed.

Lemma available_incentives_exact_witness :
  match calculate_available_incentives IncentiveCalculationEngine.init
          (mkdate 2026 11 4) storm_project with
  | Ok l =>
      forall i, In i l ->
        _check_eligibility (mkdate 2026 11 4) i storm_project = true
  | Raise _ => False
  end.
Proof.
  destruct (available_incentives_exact IncentiveCalculationEngine.init
              (mkdate 2026 11 4) storm_project "FL" eq_refl)
    as (rest & -> & H).
  intros i Hi. apply H in Hi. tauto.
Defined.

Lemma no_match_not_eligible today inc pd :
  (forall c, criterion_matches (lower (get (pd_project_type pd) ""))
               (pd_building_type pd) c = false) ->
  _check_eligibility today inc pd = false.
Proof.
  intros H. unfold _check_eligibility. cbv zeta.
  rewrite criteria_met_from.
  replace (List.filter _ (IncentiveOpportunity.eligibility_criteria inc))
    with (@nil string).
  - simpl. repeat match goal with
                  | |- context [if ?b then _ else _] => destruct b
                  end; reflexivity.
  - induction (IncentiveOpportunity.eligibility_criteria inc) as [| c l IH];
      simpl; [reflexivity |]. rewrite H. exact IH.
Qed.

(** X11: A project that names its state, whose type mentions neither solar,
    wind nor efficiency, and whose building type is neither commercial
    nor residential, is offered no incentive at all, whatever the
    catalogue holds: the list returned is empty. *)
Theorem no_signal_no_incentive (self : IncentiveCalculationEngine.t)
    (today : date) (pd : ProjectData) (st : string) :
  pd_state pd = Some st ->
  str_in "solar" (lower (get (pd_project_type pd) "")) = false ->
  str_in "wind" (lower (get (pd_project_type pd) "")) = false ->
  str_in "efficiency" (lower (get (pd_project_type pd) "")) = false ->
  opt_string_eqb (pd_building_type pd) "commercial" = false ->
  opt_string_eqb (pd_building_type pd) "residential" = false ->
  calculate_available_incentives self today pd = Ok [].
Proof.
  intros Hs H1 H2 H3 H4 H5.
  assert (Hn : forall l, eligible_among today pd l = []).
  { intros l. unfold eligible_among.
    induction l as [| i l IH]; simpl; [reflexivity |].
    rewrite no_match_not_eligible; [exact IH |].
    intros c. unfold criterion_matches. cbv zeta.
    rewrite H1, H2, H3, H4, H5, !andb_false_r. reflexivity. }
  assert (Ha : forall table key, eligible_at today pd table key = []).
  { intros table key. unfold eligible_at.
    destruct (table !! key); [apply Hn | reflexivity]. }
  unfold calculate_available_incentives. rewrite Hs, Hn, !Ha. reflexivity.
Qed.

Lemma no_signal_no_incentive_witness :
  calculate_available_incentives IncentiveCalculationEngine.init
    (mkdate 2026 11 4)
    {| pd_project_id := Some "P1"; pd_project_type := None;
       pd_building_type := Some "Commercial"; pd_state := Some "FL";
       pd_city := Some "Miami"; pd_utility_provider := Some "FPL";
       pd_project_cost := Some 1000; pd_project_size := None;
       pd_system_capacity_kw := None; pd_annual_production_kwh := None;
       pd_square_footage := None; pd_baseline_energy_usage := None;
       pd_projected_energy_usage := None; pd_total_workers := None;
       pd_local_workers := None; pd_total_hours := None;
       pd_incidents := None; pd_near_misses := None |}
  = Ok [].
Proof.
  apply (no_signal_no_incentive _ _ _ "FL"); reflexivity.
Defined.

Lemma date_gtb_irrefl (d : date) : date_gtb d d = false.
Proof.
  unfold date_gtb. rewrite !Z.ltb_irrefl, !Z.eqb_refl. reflexivity.
Qed.

(** X12: Deadlines are inclusive: on the day of its application deadline and of
    its completion deadline an incentive is still eligible, under the same
    condition as one without deadlines. *)
Theorem deadline_day_still_open (today : date)
    (inc : IncentiveOpportunity.t) (pd : ProjectData) :
  IncentiveOpportunity.application_deadline inc = Some today
  \/ IncentiveOpportunity.application_deadline inc = None ->
  IncentiveOpportunity.project_completion_deadline inc = Some today
  \/ IncentiveOpportunity.project_completion_deadline inc = None ->
  (_check_eligibility today inc pd = true
   <-> exists c, In c (IncentiveOpportunity.eligibility_criteria inc)
                 /\ criterion_matches (lower (get (pd_project_type pd) ""))
                      (pd_building_type pd) c = true).
Proof.
  intros Ha Hc.
  rewrite check_eligibility_open.
  - apply criteria_met_positive.
  - destruct Ha as [-> | ->]; simpl; [apply date_gtb_irrefl | reflexivity].
  - destruct Hc as [-> | ->]; simpl; [apply date_gtb_irrefl | reflexivity].
Qed.

Lemma deadline_day_still_open_witness :
  _check_eligibility (mkdate 2024 12 31) FL_SOLAR_REBATE_2024
    (typed_project "residential solar installation") = true.
Proof.
  apply (deadline_day_still_open (mkdate 2024 12 31) FL_SOLAR_REBATE_2024).
  - left. reflexivity.
  - right. reflexivity.
  - exists "Solar PV system". split; [right; left; reflexivity | reflexivity].
Defined.
End AvailableIncentives.

(** ** Letter case *)

(** Two projects that can differ only in the letter case of their project
    type, city and utility provider. *)
Definition same_up_to_case (pd pd' : ProjectData) : Prop :=
  lower (get (pd_project_type pd) "") = lower (get (pd_project_type pd') "")
  /\ pd_building_type pd = pd_building_type pd'
  /\ pd_state pd = pd_state pd'
  /\ lower (get (pd_city pd) "") = lower (get (pd_city pd') "")
  /\ lower (get (pd_utility_provider pd) "")
     = lower (get (pd_utility_provider pd') "").

(** [project_data['project_type'] = t; project_data['city'] = c;
    project_data['utility_provider'] = u] *)
Definition set_texts (t c u : string) (pd : ProjectData) : ProjectData :=
  {| pd_project_id := pd_project_id pd;
     pd_project_type := Some t;
     pd_building_type := pd_building_type pd;
     pd_state := pd_state pd;
     pd_city := Some c;
     pd_utility_provider := Some u;
     pd_project_cost := pd_project_cost pd;
     pd_project_size := pd_project_size pd;
     pd_system_capacity_kw := pd_system_capacity_kw pd;
     pd_annual_production_kwh := pd_annual_production_kwh pd;
     pd_square_footage := pd_square_footage pd;
     pd_baseline_energy_usage := pd_baseline_energy_usage pd;
     pd_projected_energy_usage := pd_projected_energy_usage pd;
     pd_total_workers := pd_total_workers pd;
     pd_local_workers := pd_local_workers pd;
     pd_total_hours := pd_total_hours pd;
     pd_incidents := pd_incidents pd;
     pd_near_misses := pd_near_misses pd |}.

(** X13: Eligibility and the list of available incentives do not depend on the
    letter case of the project type, the city or the utility provider. *)
Theorem incentives_ignore_case (self : IncentiveCalculationEngine.t)
    (today : date) (pd pd' : ProjectData) :
  same_up_to_case pd pd' ->
  (forall inc,
     IncentiveCalculationEngine._check_eligibility today inc pd
     = IncentiveCalculationEngine._check_eligibility today inc pd')
  /\ IncentiveCalculationEngine.calculate_available_incentives self today pd
     = IncentiveCalculationEngine.calculate_available_incentives self today
         pd'.
Proof.
  intros (Ht & Hb & Hs & Hc & Hu).
  assert (He : forall inc,
            IncentiveCalculationEngine._check_eligibility today inc pd
            = IncentiveCalculationEngine._check_eligibility today inc pd').
  { intros inc. unfold IncentiveCalculationEngine._check_eligibility.
    rewrite Ht, Hb. reflexivity. }
  split; [exact He |].
  assert (Hl : forall l,
            IncentiveCalculationEngine.eligible_among today pd l
            = IncentiveCalculationEngine.eligible_among today pd' l).
  { intros l. apply List.filter_ext. intros i. apply He. }
  assert (Ha : forall table key,
            IncentiveCalculationEngine.eligible_at today pd table key
            = IncentiveCalculationEngine.eligible_at today pd' table key).
  { intros table key. unfold IncentiveCalculationEngine.eligible_at.
    destruct (table !! key); [apply Hl | reflexivity]. }
  unfold IncentiveCalculationEngine.calculate_available_incentives.
  rewrite Hs, Hc, Hu, Hl.
  destruct (pd_state pd'); [| reflexivity].
  rewrite !Ha. reflexivity.
Qed.

Lemma incentives_ignore_case_witness :
  IncentiveCalculationEngine.calculate_available_incentives
    IncentiveCalculationEngine.init (mkdate 2026 11 4) storm_project
  = IncentiveCalculationEngine.calculate_available_incentives
      IncentiveCalculationEngine.init (mkdate 2026 11 4)
      (set_texts "Storm Restoration with SOLAR Installation" "MIAMI"
         "florida power & light" storm_project).
Proof.
  apply incentives_ignore_case. repeat split.
Defined.

(** ** Sign of the incentive value *)

(** An incentive whose amount, percentage and cap are not negative. *)
Definition nonneg_incentive (inc : IncentiveOpportunity.t) : Prop :=
  0 <= IncentiveOpportunity.amount inc
  /\ (forall p, IncentiveOpportunity.percentage inc = Some p -> 0 <= p)
  /\ (forall c, IncentiveOpportunity.max_amount inc = Some c -> 0 <= c).

(** X14: For an incentive without negative figures, a cost that is not negative
    and a size that is not negative, the incentive value is not negative. *)
Theorem incentive_value_nonneg (inc : IncentiveOpportunity.t) (cost : Q)
    (size : option Q) :
  nonneg_incentive inc -> 0 <= cost ->
  (forall s, size = Some s -> 0 <= s) ->
  0 <= IncentiveCalculationEngine.calculate_incentive_value inc cost size.
Proof.
  intros (Ha & Hp & Hc) Hcost Hs.
  unfold IncentiveCalculationEngine.calculate_incentive_value,
    IncentiveCalculationEngine.the.
  destruct (IncentiveOpportunity.percentage inc) as [p |] eqn:Ep;
    destruct (IncentiveOpportunity.max_amount inc) as [c |] eqn:Ec;
    destruct size as [s |]; simpl;
    try specialize (Hp _ eq_refl); try specialize (Hc _ eq_refl);
    try specialize (Hs _ eq_refl);
    try assert (Hv : 0 <= cost * Decimal_str (float_truediv p 100))
      by (apply Qmult_le_0_compat;
          [assumption | apply percentage_rate_nonneg; assumption]);
    repeat match goal with
           | |- context [if ?b then _ else _] => destruct b; simpl
           end;
    try lra;
    try (apply py_min_glb; lra);
    try (apply Qmult_le_0_compat; assumption).
Qed.

Lemma incentive_value_nonneg_witness :
  0 <= IncentiveCalculationEngine.calculate_incentive_value
         LA_SOLAR_TAX_CREDIT_2024 100000 (Some 8).
Proof.
  apply incentive_value_nonneg.
  - repeat split; simpl; try qcmp;
      intros q H; injection H as <-; qcmp.
  - qcmp.
  - intros s H. injection H as <-. qcmp.
Defined.

(** ** What processing a project records *)

(** Name, project and verification flag of a metric. *)
Definition describe (m : ESGMetric.t) : string * option string * bool :=
  (ESGMetric.metric_name m, ESGMetric.project_id m,
   ESGMetric.third_party_verified m).

Definition environmental_log (self : ESGIncentiveIntegrationEngine.t)
  : list ESGMetric.t :=
  EnvironmentalTracker.metrics
    (ESGScoringEngine.environmental_tracker
       (ESGIncentiveIntegrationEngine.esg_scoring self)).

Definition social_log (self : ESGIncentiveIntegrationEngine.t)
  : list ESGMetric.t :=
  SocialImpactTracker.metrics
    (ESGScoringEngine.social_tracker
       (ESGIncentiveIntegrationEngine.esg_scoring self)).

Definition governance_log (self : ESGIncentiveIntegrationEngine.t)
  : list ESGMetric.t :=
  GovernanceTracker.metrics
    (ESGScoringEngine.governance_tracker
       (ESGIncentiveIntegrationEngine.esg_scoring self)).

Ltac unfold_tracking :=
  unfold ESGIncentiveIntegrationEngine._track_project_metrics,
    ESGIncentiveIntegrationEngine.on_environmental,
    ESGIncentiveIntegrationEngine.on_social,
    EnvironmentalTracker.track_renewable_energy,
    EnvironmentalTracker.track_energy_efficiency,
    SocialImpactTracker.track_local_hiring,
    SocialImpactTracker.track_safety_metrics,
    EnvironmentalTracker.append, SocialImpactTracker.extend,
    bind, zoom, lift_result, ret, read, modify.

Lemma tracking_effect (now : Z) (pid : option string)
    (pd : ProjectData) (self self' : ESGIncentiveIntegrationEngine.t) :
  ESGIncentiveIntegrationEngine._track_project_metrics now pid pd self
  = (Ok tt, self') ->
  let pt := lower (get (pd_project_type pd) "") in
  exists le ls,
    environmental_log self' = (environmental_log self ++ le)%list
    /\ social_log self' = (social_log self ++ ls)%list
    /\ List.map describe le
       = ((if str_in "solar" pt
           then [("renewable_energy_solar_pv", pid, true)] else [])
          ++ (if str_in "energy efficiency" pt
              then [("energy_efficiency_improvement", pid, true)] else []))%list
    /\ List.map describe ls
       = [("local_hire_rate", pid, false);
          ("osha_incident_rate", pid, false);
          ("near_miss_rate", pid, false)]
    /\ governance_log self' = governance_log self
    /\ ESGIncentiveIntegrationEngine.incentive_calc self'
       = ESGIncentiveIntegrationEngine.incentive_calc self.
Proof.
  cbv zeta. unfold environmental_log, social_log, governance_log.
  unfold_tracking.
  destruct (str_in "solar" _); destruct (str_in "energy efficiency" _);
    repeat match goal with
           | |- context [py_div ?a ?b] => destruct (py_div a b)
           end;
    simpl;
    repeat match goal with
           | |- context [if ?b then _ else _] => destruct b; simpl
           end;
    intros H; try discriminate H; injection H as <-; simpl;
    rewrite <- ?List.app_assoc;
    eexists; eexists;
    (split; [first [reflexivity | symmetry; apply List.app_nil_r] |]);
    (split; [reflexivity |]);
    repeat split.
Qed.

(** X16: A successful [_track_project_metrics] appends to the social log the
    local hire rate, the incident rate and the near-miss rate of the
    project, appends to the environmental log one verified renewable
    energy metric for a solar project and one verified efficiency metric
    for an energy efficiency project, and leaves the governance log and
    the incentive catalogue untouched. *)
Theorem tracking_log_growth (now : Z) (pid : option string)
    (pd : ProjectData) (self self' : ESGIncentiveIntegrationEngine.t) :
  ESGIncentiveIntegrationEngine._track_project_metrics now pid pd self
  = (Ok tt, self') ->
  let pt := lower (get (pd_project_type pd) "") in
  exists le ls,
    environmental_log self' = (environmental_log self ++ le)%list
    /\ social_log self' = (social_log self ++ ls)%list
    /\ List.map describe le
       = ((if str_in "solar" pt
           then [("renewable_energy_solar_pv", pid, true)] else [])
          ++ (if str_in "energy efficiency" pt
              then [("energy_efficiency_improvement", pid, true)] else []))%list
    /\ List.map describe ls
       = [("local_hire_rate", pid, false);
          ("osha_incident_rate", pid, false);
          ("near_miss_rate", pid, false)]
    /\ governance_log self' = governance_log self
    /\ ESGIncentiveIntegrationEngine.incentive_calc self'
       = ESGIncentiveIntegrationEngine.incentive_calc self.
Proof. apply tracking_effect. Qed.

Lemma tracking_log_growth_witness :
  List.map describe
    (social_log
       (snd (ESGIncentiveIntegrationEngine._track_project_metrics 0
               (Some "STORM_2024_MIAMI_001") storm_project
               ESGIncentiveIntegrationEngine.init)))
  = [("local_hire_rate", Some "STORM_2024_MIAMI_001", false);
     ("osha_incident_rate", Some "STORM_2024_MIAMI_001", false);
     ("near_miss_rate", Some "STORM_2024_MIAMI_001", false)].
Proof.
  destruct (ESGIncentiveIntegrationEngine._track_project_metrics 0
              (Some "STORM_2024_MIAMI_001") storm_project
              ESGIncentiveIntegrationEngine.init)
    as [[[] | e] s'] eqn:E.
  - destruct (tracking_log_growth _ _ _ _ _ E)
      as (le & ls & _ & Hs & _ & Hd & _).
    simpl. rewrite Hs. exact Hd.
  - vm_compute in E. discriminate E.
Defined.

Lemma tracking_returns (now : Z) (pid : option string) (pd : ProjectData)
    (self : ESGIncentiveIntegrationEngine.t) :
  get (pd_total_workers pd) 10%Z <> 0%Z ->
  ~ get (pd_total_hours pd) 2000 == 0 ->
  ~ get (pd_baseline_energy_usage pd) 100000 == 0 ->
  exists self',
    ESGIncentiveIntegrationEngine._track_project_metrics now pid pd self
    = (Ok tt, self').
Proof.
  intros Hw Hh Hb. unfold_tracking.
  rewrite (py_div_ok _ _ (inject_Z_nonzero _ Hw)), !(py_div_ok _ _ Hh),
    (py_div_ok _ _ Hb).
  destruct (str_in "solar" _); destruct (str_in "energy efficiency" _);
    simpl;
    repeat match goal with
           | |- context [if ?b then _ else _] => destruct b; simpl
           end;
    eexists; reflexivity.
Qed.

Lemma summary_names (self : ESGIncentiveIntegrationEngine.t) (cost : Q)
    (size : option Q) (l : list IncentiveOpportunity.t)
    (acc : list IncentiveSummary * Q) :
  List.map summary_name
    (fst (fold_left
            (ESGIncentiveIntegrationEngine.summary_step self cost size) l
            acc))
  = (List.map summary_name (fst acc)
     ++ List.map IncentiveOpportunity.name l)%list.
Proof.
  revert acc. induction l as [| i l IH]; intros acc; simpl.
  - rewrite List.app_nil_r. reflexivity.
  - rewrite IH. simpl. rewrite List.map_app, <- List.app_assoc. reflexivity.
Qed.

Lemma report_parts (now : Z) (today : date) (pd : ProjectData)
    (self self' : ESGIncentiveIntegrationEngine.t) (r : Report) :
  ESGIncentiveIntegrationEngine.process_project_esg_incentives now today pd
    self = (Ok r, self') ->
  report_project_id r = pd_project_id pd
  /\ esg_score r
     = ESGScoringEngine.calculate_esg_score
         (ESGIncentiveIntegrationEngine.esg_scoring self') now
         (pd_project_id pd)
  /\ (exists l,
        IncentiveCalculationEngine.calculate_available_incentives
          (ESGIncentiveIntegrationEngine.incentive_calc self) today pd
        = Ok l
        /\ List.map summary_name (available_incentives r)
           = List.map IncentiveOpportunity.name l
        /\ List.map summary_value (available_incentives r)
           = List.map
               (fun i =>
                  IncentiveCalculationEngine.calculate_incentive_value i
                    (get (pd_project_cost pd) 0) (pd_project_size pd)) l)
  /\ ESGIncentiveIntegrationEngine.incentive_calc self'
     = ESGIncentiveIntegrationEngine.incentive_calc self
  /\ governance_log self' = governance_log self.
Proof.
  unfold ESGIncentiveIntegrationEngine.process_project_esg_incentives.
  unfold bind at 1.
  destruct (ESGIncentiveIntegrationEngine._track_project_metrics now
              (pd_project_id pd) pd self) as [[[] | e] s1] eqn:Et;
    [| discriminate].
  destruct (tracking_effect _ _ _ _ _ Et)
    as (le & ls & _ & _ & _ & _ & Hg & Hc).
  unfold bind, read, lift_result, ret. rewrite Hc.
  destruct (IncentiveCalculationEngine.calculate_available_incentives
              (ESGIncentiveIntegrationEngine.incentive_calc self) today pd)
    as [l | e]; [| discriminate].
  pose proof (summary_fold s1 (get (pd_project_cost pd) 0)
                (pd_project_size pd) l ([], 0)) as Hf.
  pose proof (summary_names s1 (get (pd_project_cost pd) 0)
                (pd_project_size pd) l ([], 0)) as Hn.
  cbv zeta in Hf.
  destruct (fold_left _ l ([], 0)) as [summary total].
  destruct Hf as [Hm _]. simpl in Hm, Hn.
  intros H. injection H as <- <-. simpl.
  split; [reflexivity |]. split; [reflexivity |].
  split; [exists l; auto |]. split; assumption.
Qed.

(** X17: A report is put together from the parts: it carries the project id,
    the score computed on the log as it is after tracking, and one entry
    per incentive returned by [calculate_available_incentives], in the
    same order, with the value [calculate_incentive_value] gives it.
    Processing changes neither the catalogue nor the governance log. *)
Theorem report_composition (now : Z) (today : date) (pd : ProjectData)
    (self self' : ESGIncentiveIntegrationEngine.t) (r : Report) :
  ESGIncentiveIntegrationEngine.process_project_esg_incentives now today pd
    self = (Ok r, self') ->
  report_project_id r = pd_project_id pd
  /\ esg_score r
     = ESGScoringEngine.calculate_esg_score
         (ESGIncentiveIntegrationEngine.esg_scoring self') now
         (pd_project_id pd)
  /\ (exists l,
        IncentiveCalculationEngine.calculate_available_incentives
          (ESGIncentiveIntegrationEngine.incentive_calc self) today pd
        = Ok l
        /\ List.map summary_name (available_incentives r)
           = List.map IncentiveOpportunity.name l
        /\ List.map summary_value (available_incentives r)
           = List.map
               (fun i =>
                  IncentiveCalculationEngine.calculate_incentive_value i
                    (get (pd_project_cost pd) 0) (pd_project_size pd)) l)
  /\ ESGIncentiveIntegrationEngine.incentive_calc self'
     = ESGIncentiveIntegrationEngine.incentive_calc self
  /\ governance_log self' = governance_log self.
Proof. apply report_parts. Qed.

Lemma report_composition_witness :
  match fst (ESGIncentiveIntegrationEngine.process_project_esg_incentives 0
               (mkdate 2026 11 4) storm_project
               ESGIncentiveIntegrationEngine.init) with
  | Ok r => report_project_id r = Some "STORM_2024_MIAMI_001"
  | Raise _ => False
  end.
Proof.
  destruct (ESGIncentiveIntegrationEngine.process_project_esg_incentives 0
              (mkdate 2026 11 4) storm_project
              ESGIncentiveIntegrationEngine.init) as [[r | e] s'] eqn:E.
  - simpl. destruct (report_composition _ _ _ _ _ _ E) as (H & _). exact H.
  - vm_compute in E. discriminate E.
Defined.

(** ** Processing a solar project *)

Lemma environmental_score_snoc (l : list ESGMetric.t) (m : ESGMetric.t) :
  ESGScoringEngine._calculate_environmental_score (l ++ [m])
  = py_min 100
      (ESGScoringEngine.environmental_step
         (fold_left ESGScoringEngine.environmental_step l 50) m).
Proof.
  unfold ESGScoringEngine._calculate_environmental_score.
  destruct l as [| m0 l]; [reflexivity |].
  change ((m0 :: l) ++ [m])%list with (m0 :: (l ++ [m]))%list.
  cbn [fold_left]. rewrite List.fold_left_app. reflexivity.
Qed.

Lemma renewable_metric_step (s : Q) (m : ESGMetric.t) :
  ESGMetric.metric_name m = "renewable_energy_solar_pv" ->
  ESGMetric.third_party_verified m = true ->
  ESGScoringEngine.environmental_step s m = s + 15 + 2.
Proof.
  intros Hn Hv.
  unfold ESGScoringEngine.environmental_step. rewrite Hn, Hv. reflexivity.
Qed.

(** X18: Every successful processing of a solar project (one that is not also
    an energy efficiency project) records one more renewable energy
    metric, so the environmental score in the report is 17 points above
    what the project's earlier environmental metrics add up to, capped at
    100: processing the same project again raises its score again. *)
Theorem solar_processing_adds_17 (now : Z) (today : date)
    (pd : ProjectData) (self self' : ESGIncentiveIntegrationEngine.t)
    (r : Report) :
  ESGIncentiveIntegrationEngine.process_project_esg_incentives now today pd
    self = (Ok r, self') ->
  str_in "solar" (lower (get (pd_project_type pd) "")) = true ->
  str_in "energy efficiency" (lower (get (pd_project_type pd) "")) = false ->
  ESGScore.environmental_score (esg_score r)
  = py_min 100
      (fold_left ESGScoringEngine.environmental_step
         (ESGScoringEngine.metrics_of (pd_project_id pd)
            (environmental_log self)) 50
       + 15 + 2).
Proof.
  intros Hrun Hsolar Hee.
  destruct (report_parts _ _ _ _ _ _ Hrun) as (_ & -> & _).
  revert Hrun.
  unfold ESGIncentiveIntegrationEngine.process_project_esg_incentives.
  unfold bind at 1.
  destruct (ESGIncentiveIntegrationEngine._track_project_metrics now
              (pd_project_id pd) pd self) as [[[] | e] s1] eqn:Et;
    [| discriminate].
  destruct (tracking_effect _ _ _ _ _ Et)
    as (le & ls & Hle & _ & Hd & _).
  cbv zeta in Hd. rewrite Hsolar, Hee in Hd.
  destruct le as [| m [| m' le]]; try discriminate Hd.
  simpl in Hd. injection Hd as Hname Hp Hver.
  unfold bind, read, lift_result, ret.
  destruct (IncentiveCalculationEngine.calculate_available_incentives _ _ _);
    [| discriminate].
  destruct (fold_left _ _ _). intros Hret. injection Hret as _ <-.
  unfold ESGScoringEngine.calculate_esg_score.
  cbn [ESGScore.environmental_score].
  unfold environmental_log in Hle. rewrite Hle, metrics_of_app.
  rewrite (metrics_of_all _ [m]) by (repeat constructor; exact Hp).
  rewrite environmental_score_snoc.
  rewrite (renewable_metric_step _ m Hname Hver).
  reflexivity.
Qed.

Lemma solar_processing_adds_17_witness :
  match fst (ESGIncentiveIntegrationEngine.process_project_esg_incentives 0
               (mkdate 2026 11 4) residential_project
               ESGIncentiveIntegrationEngine.init) with
  | Ok r => ESGScore.environmental_score (esg_score r) == 67
  | Raise _ => False
  end.
Proof.
  destruct (ESGIncentiveIntegrationEngine.process_project_esg_incentives 0
              (mkdate 2026 11 4) residential_project
              ESGIncentiveIntegrationEngine.init) as [[r | e] s'] eqn:E.
  - simpl.
    rewrite (solar_processing_adds_17 _ _ _ _ _ _ E eq_refl eq_refl).
    vm_compute. reflexivity.
  - vm_compute in E. discriminate E.
Defined.

(** ** Calls that fail half way *)

(** X19: When a solar project reports zero workers, processing raises
    ZeroDivisionError, but the renewable energy metric recorded before
    the division stays in the environmental log. *)
Theorem failed_processing_keeps_metric (now : Z) (today : date)
    (pd : ProjectData) (self : ESGIncentiveIntegrationEngine.t) :
  str_in "solar" (lower (get (pd_project_type pd) "")) = true ->
  str_in "energy efficiency" (lower (get (pd_project_type pd) "")) = false ->
  get (pd_total_workers pd) 10%Z = 0%Z ->
  let run :=
    ESGIncentiveIntegrationEngine.process_project_esg_incentives now today
      pd self in
  fst run = Raise ZeroDivisionError
  /\ exists m,
       environmental_log (snd run) = (environmental_log self ++ [m])%list
       /\ describe m
          = ("renewable_energy_solar_pv", pd_project_id pd, true)
       /\ social_log (snd run) = social_log self.
Proof.
  intros Hsolar Hee Hw. cbv zeta.
  unfold ESGIncentiveIntegrationEngine.process_project_esg_incentives.
  unfold_tracking. rewrite Hsolar, Hee, Hw. simpl.
  split; [reflexivity |]. eexists. repeat split.
Qed.

Lemma failed_processing_keeps_metric_witness :
  fst (ESGIncentiveIntegrationEngine.process_project_esg_incentives 0
         (mkdate 2026 11 4) (set_total_workers 0 storm_project)
         ESGIncentiveIntegrationEngine.init)
  = Raise ZeroDivisionError
  /\ List.length
       (environmental_log
          (snd (ESGIncentiveIntegrationEngine.process_project_esg_incentives
                  0 (mkdate 2026 11 4) (set_total_workers 0 storm_project)
                  ESGIncentiveIntegrationEngine.init)))
     = 1%nat.
Proof.
  destruct (failed_processing_keeps_metric 0 (mkdate 2026 11 4)
              (set_total_workers 0 storm_project)
              ESGIncentiveIntegrationEngine.init eq_refl eq_refl eq_refl)
    as (H & m & -> & _).
  split; [exact H | reflexivity].
Defined.

(** X20: A project without the key [state] is turned down with AttributeError
    only after its metrics have been recorded: the three social metrics
    of the call are in the log when the exception leaves. *)
Theorem stateless_project_recorded_first (now : Z) (today : date)
    (pd : ProjectData) (self : ESGIncentiveIntegrationEngine.t) :
  pd_state pd = None ->
  get (pd_total_workers pd) 10%Z <> 0%Z ->
  ~ get (pd_total_hours pd) 2000 == 0 ->
  ~ get (pd_baseline_energy_usage pd) 100000 == 0 ->
  let run :=
    ESGIncentiveIntegrationEngine.process_project_esg_incentives now today
      pd self in
  fst run = Raise AttributeError
  /\ exists ls,
       social_log (snd run) = (social_log self ++ ls)%list
       /\ List.map describe ls
          = [("local_hire_rate", pd_project_id pd, false);
             ("osha_incident_rate", pd_project_id pd, false);
             ("near_miss_rate", pd_project_id pd, false)].
Proof.
  intros Hs Hw Hh Hb. cbv zeta.
  destruct (tracking_returns now (pd_project_id pd) pd self Hw Hh Hb)
    as (s1 & Et).
  destruct (tracking_effect _ _ _ _ _ Et)
    as (le & ls & _ & Hls & _ & Hd & _).
  unfold ESGIncentiveIntegrationEngine.process_project_esg_incentives,
    bind, read, lift_result,
    IncentiveCalculationEngine.calculate_available_incentives.
  rewrite Et, Hs. simpl.
  split; [reflexivity |]. exists ls. split; [exact Hls | exact Hd].
Qed.

Lemma stateless_project_recorded_first_witness :
  fst (ESGIncentiveIntegrationEngine.process_project_esg_incentives 0
         (mkdate 2026 11 4) (del_state storm_project)
         ESGIncentiveIntegrationEngine.init)
  = Raise AttributeError
  /\ List.length
       (social_log
          (snd (ESGIncentiveIntegrationEngine.process_project_esg_incentives
                  0 (mkdate 2026 11 4) (del_state storm_project)
                  ESGIncentiveIntegrationEngine.init)))
     = 3%nat.
Proof.
  assert (H1 : get (pd_total_workers (del_state storm_project)) 10%Z <> 0%Z)
    by (simpl; lia).
  assert (H2 : ~ get (pd_total_hours (del_state storm_project)) 2000 == 0)
    by (intros H; discriminate H).
  assert (H3 : ~ get (pd_baseline_energy_usage (del_state storm_project))
                   100000 == 0)
    by (intros H; discriminate H).
  destruct (stateless_project_recorded_first 0 (mkdate 2026 11 4)
              (del_state storm_project) ESGIncentiveIntegrationEngine.init
              eq_refl H1 H2 H3) as (H & ls & -> & Hd).
  split; [exact H |].
  change (social_log ESGIncentiveIntegrationEngine.init) with (@nil ESGMetric.t).
  simpl. rewrite <- (List.length_map describe), Hd. reflexivity.
Defined.

(** ** When processing fails *)

(** One of the divisions of [_track_project_metrics] is by zero: the
    energy baseline of an energy efficiency project, the number of
    workers, or the hours worked (each with its default when absent). *)
Definition zero_denominator (pd : ProjectData) : bool :=
  (str_in "energy efficiency" (lower (get (pd_project_type pd) ""))
   && Qeq_bool (get (pd_baseline_energy_usage pd) 100000) 0)
  || (get (pd_total_workers pd) 10 =? 0)%Z
  || Qeq_bool (get (pd_total_hours pd) 2000) 0.

(** X21: For counts of local workers, incidents and near misses within the
    float range, [process_project_esg_incentives] fails in exactly two
    ways: with ZeroDivisionError when one of the tracked denominators is
    zero, and otherwise with AttributeError when the project has no
    state; in every other case it returns a report. *)
Theorem process_outcome (now : Z) (today : date) (pd : ProjectData)
    (self : ESGIncentiveIntegrationEngine.t) :
  in_float_range (get (pd_local_workers pd) 8%Z) ->
  in_float_range (get (pd_incidents pd) 0%Z) ->
  in_float_range (get (pd_near_misses pd) 2%Z) ->
  match fst (ESGIncentiveIntegrationEngine.process_project_esg_incentives
               now today pd self) with
  | Ok _ => zero_denominator pd = false /\ pd_state pd <> None
  | Raise ZeroDivisionError => zero_denominator pd = true
  | Raise AttributeError => zero_denominator pd = false /\ pd_state pd = None
  end.
Proof.
  intros _ _ _.
  unfold zero_denominator,
    ESGIncentiveIntegrationEngine.process_project_esg_incentives,
    IncentiveCalculationEngine.calculate_available_incentives.
  unfold_tracking. unfold py_div. rewrite Qeq_bool_inject_Z.
  destruct (str_in "solar" _); destruct (str_in "energy efficiency" _);
    destruct (Qeq_bool (get (pd_baseline_energy_usage pd) 100000) 0);
    destruct (get (pd_total_workers pd) 10 =? 0)%Z;
    destruct (Qeq_bool (get (pd_total_hours pd) 2000) 0);
    destruct (pd_state pd); simpl;
    repeat match goal with
           | |- context [if ?b then _ else _] => destruct b; simpl
           end;
    repeat match goal with
           | |- context [let '(_, _) := ?p in _] => destruct p; simpl
           end;
    try reflexivity; split; congruence.
Qed.

Lemma process_outcome_witness :
  match fst (ESGIncentiveIntegrationEngine.process_project_esg_incentives 0
               (mkdate 2026 11 4) (del_state storm_project)
               ESGIncentiveIntegrationEngine.init) with
  | Raise AttributeError => True
  | _ => False
  end.
Proof.
  assert (H12 : in_float_range 12) by (apply in_float_range_small; simpl; lia).
  assert (H0 : in_float_range 0) by (apply in_float_range_small; simpl; lia).
  assert (H1 : in_float_range 1) by (apply in_float_range_small; simpl; lia).
  pose proof (process_outcome 0 (mkdate 2026 11 4) (del_state storm_project)
                ESGIncentiveIntegrationEngine.init H12 H0 H1) as H.
  destruct (fst (ESGIncentiveIntegrationEngine.process_project_esg_incentives
                   0 (mkdate 2026 11 4) (del_state storm_project)
                   ESGIncentiveIntegrationEngine.init)) as [r | [|]].
  - destruct H as [_ H]. apply H. reflexivity.
  - vm_compute in H. discriminate H.
  - exact I.
Defined.

(** ** From a tracker call to the score *)

Lemma social_score_app (l : list ESGMetric.t) (m : ESGMetric.t)
    (l' : list ESGMetric.t) :
  ESGScoringEngine._calculate_social_score (l ++ m :: l')
  = py_min 100
      (fold_left ESGScoringEngine.social_step (m :: l')
         (fold_left ESGScoringEngine.social_step l 50)).
Proof.
  unfold ESGScoringEngine._calculate_social_score.
  rewrite <- List.fold_left_app. destruct l; reflexivity.
Qed.

Lemma governance_score_app (l : list ESGMetric.t) (m : ESGMetric.t)
    (l' : list ESGMetric.t) :
  ESGScoringEngine._calculate_governance_score (l ++ m :: l')
  = py_min 100
      (fold_left ESGScoringEngine.governance_step (m :: l')
         (fold_left ESGScoringEngine.governance_step l 50)).
Proof.
  unfold ESGScoringEngine._calculate_governance_score.
  rewrite <- List.fold_left_app. destruct l; reflexivity.
Qed.

Lemma opt_string_eq_refl (o : option string) : opt_string_eq o o = true.
Proof. apply opt_string_eq_true. reflexivity. Qed.

(** The governance points a project has collected before the cap. *)
Definition governance_points (pid : option string)
    (self : GovernanceTracker.t) : Q :=
  fold_left ESGScoringEngine.governance_step
    (ESGScoringEngine.metrics_of pid (GovernanceTracker.metrics self)) 50.

(** The social points a project has collected before the cap. *)
Definition social_points (pid : option string)
    (self : SocialImpactTracker.t) : Q :=
  fold_left ESGScoringEngine.social_step
    (ESGScoringEngine.metrics_of pid (SocialImpactTracker.metrics self)) 50.

(** X22: Recording compliance scores raises the governance score of the
    project by 15 percent of each of the three scores, at most 15 points
    each; with three full scores and no earlier governance metric the
    score is 95. *)
Theorem compliance_bonus (now : Z) (pid : option string) (state : string)
    (p s e : Q) (self : GovernanceTracker.t) :
  let self' :=
    snd (GovernanceTracker.track_compliance_scores now pid state p s e self) in
  ESGScoringEngine._calculate_governance_score
    (ESGScoringEngine.metrics_of pid (GovernanceTracker.metrics self'))
  = py_min 100
      (governance_points pid self
       + py_min 15 (p / 100 * 15) + py_min 15 (s / 100 * 15)
       + py_min 15 (e / 100 * 15))
  /\ (none_for pid (GovernanceTracker.metrics self) ->
      100 <= p -> 100 <= s -> 100 <= e ->
      ESGScoringEngine._calculate_governance_score
        (ESGScoringEngine.metrics_of pid (GovernanceTracker.metrics self'))
      == 95).
Proof.
  cbv zeta.
  assert (H : ESGScoringEngine._calculate_governance_score
                (ESGScoringEngine.metrics_of pid
                   (GovernanceTracker.metrics
                      (snd (GovernanceTracker.track_compliance_scores now
                              pid state p s e self))))
              = py_min 100
                  (governance_points pid self
                   + py_min 15 (p / 100 * 15) + py_min 15 (s / 100 * 15)
                   + py_min 15 (e / 100 * 15))).
  { unfold governance_points. simpl. rewrite metrics_of_app.
    unfold ESGScoringEngine.metrics_of at 2. simpl.
    rewrite opt_string_eq_refl. simpl.
    rewrite governance_score_app. reflexivity. }
  split; [exact H |].
  intros Hn Hp Hs He. rewrite H. unfold governance_points.
  rewrite (metrics_of_none _ _ Hn). simpl.
  destruct (py_min_cases 15 (p / 100 * 15)) as [[Hp' ->] | [_ ->]];
    [assert (1 <= p / 100) by (apply Qle_shift_div_l; lra); lra |].
  destruct (py_min_cases 15 (s / 100 * 15)) as [[Hs' ->] | [_ ->]];
    [assert (1 <= s / 100) by (apply Qle_shift_div_l; lra); lra |].
  destruct (py_min_cases 15 (e / 100 * 15)) as [[He' ->] | [_ ->]];
    [assert (1 <= e / 100) by (apply Qle_shift_div_l; lra); lra |].
  vm_compute. reflexivity.
Qed.

Lemma compliance_bonus_witness :
  ESGScoringEngine._calculate_governance_score
    (ESGScoringEngine.metrics_of (Some "P1")
       (GovernanceTracker.metrics
          (snd (GovernanceTracker.track_compliance_scores 0 (Some "P1")
                  "FL" 100 100 100 GovernanceTracker.init))))
  == 95.
Proof.
  destruct (compliance_bonus 0 (Some "P1") "FL" 100 100 100
              GovernanceTracker.init) as (_ & H).
  apply H; [intros m [] | qcmp | qcmp | qcmp].
Defined.

(** X23: Recording the certifications of a project raises its governance score
    by three points per certification, at most ten: from the fourth
    certification on nothing more is gained. *)
Theorem certification_bonus (now : Z) (pid : option string)
    (certifications : list string) (self : GovernanceTracker.t) :
  let self' :=
    snd (GovernanceTracker.track_certification_status now pid certifications
           self) in
  let count := inject_Z (Z.of_nat (List.length certifications)) in
  ESGScoringEngine._calculate_governance_score
    (ESGScoringEngine.metrics_of pid (GovernanceTracker.metrics self'))
  = py_min 100 (governance_points pid self + py_min 10 (count * 3))
  /\ ((List.length certifications <= 3)%nat ->
      py_min 10 (count * 3) == count * 3)
  /\ ((4 <= List.length certifications)%nat -> py_min 10 (count * 3) == 10).
Proof.
  cbv zeta. split; [| split].
  - unfold governance_points. simpl. rewrite metrics_of_app.
    unfold ESGScoringEngine.metrics_of at 2. simpl.
    rewrite opt_string_eq_refl. simpl.
    rewrite governance_score_app. reflexivity.
  - intros Hn.
    assert (inject_Z (Z.of_nat (List.length certifications)) <= 3).
    { change 3 with (inject_Z 3). apply inject_Z_le. lia. }
    destruct (py_min_cases 10 (inject_Z (Z.of_nat (List.length certifications)) * 3))
      as [[_ ->] | [? ->]]; lra.
  - intros Hn.
    assert (4 <= inject_Z (Z.of_nat (List.length certifications))).
    { change 4 with (inject_Z 4). apply inject_Z_le. lia. }
    destruct (py_min_cases 10 (inject_Z (Z.of_nat (List.length certifications)) * 3))
      as [[? ->] | [_ ->]]; lra.
Qed.

Lemma certification_bonus_witness :
  py_min 10
    (inject_Z (Z.of_nat (List.length ["LEED"; "Energy Star"; "WELL";
                                     "Green Globes"; "BREEAM"])) * 3)
  == 10.
Proof.
  destruct (certification_bonus 0 (Some "P1")
              ["LEED"; "Energy Star"; "WELL"; "Green Globes"; "BREEAM"]
              GovernanceTracker.init) as (_ & _ & H).
  apply H. simpl. lia.
Defined.

(** X24: Recording local hiring raises the social score of the project by 0.3
    points per percent of local workers, at most 15; the three diversity
    rates fall under the general hire-rate rule and bring 0.2 points per
    percent each, at most 10 each. *)
Theorem hiring_bonus (now : Z) (pid : option string)
    (total local minority women veteran : Z) (self : SocialImpactTracker.t) :
  total <> 0%Z ->
  let rate (n : Z) := inject_Z n / inject_Z total * 100 in
  ESGScoringEngine._calculate_social_score
    (ESGScoringEngine.metrics_of pid
       (SocialImpactTracker.metrics
          (snd (SocialImpactTracker.track_local_hiring now pid total local
                  self))))
  = py_min 100
      (social_points pid self + py_min 15 (rate local * (3 # 10)))
  /\ ESGScoringEngine._calculate_social_score
       (ESGScoringEngine.metrics_of pid
          (SocialImpactTracker.metrics
             (snd (SocialImpactTracker.track_diversity_hiring now pid total
                     minority women veteran self))))
     = py_min 100
         (social_points pid self
          + py_min 10 (rate minority * (2 # 10))
          + py_min 10 (rate women * (2 # 10))
          + py_min 10 (rate veteran * (2 # 10))).
Proof.
  intros Ht. cbv zeta.
  unfold SocialImpactTracker.track_local_hiring,
    SocialImpactTracker.track_diversity_hiring, social_points.
  rewrite !(py_div_ok _ _ (inject_Z_nonzero _ Ht)).
  unfold bind, lift_result, SocialImpactTracker.extend, modify, ret.
  simpl. rewrite !metrics_of_app.
  split.
  - unfold ESGScoringEngine.metrics_of at 2. simpl.
    rewrite opt_string_eq_refl. simpl.
    rewrite social_score_app. reflexivity.
  - unfold ESGScoringEngine.metrics_of at 2. simpl.
    rewrite opt_string_eq_refl. simpl.
    rewrite social_score_app. reflexivity.
Qed.

Lemma hiring_bonus_witness :
  ESGScoringEngine._calculate_social_score
    (ESGScoringEngine.metrics_of (Some "P1")
       (SocialImpactTracker.metrics
          (snd (SocialImpactTracker.track_local_hiring 0 (Some "P1") 15 12
                  SocialImpactTracker.init))))
  == 65.
Proof.
  assert (Ht : 15%Z <> 0%Z) by lia.
  destruct (hiring_bonus 0 (Some "P1") 15 12 3 4 1
              SocialImpactTracker.init Ht) as (-> & _).
  vm_compute. reflexivity.
Defined.

(** X25: Recording the safety figures raises the social score of the project
    by 15 points when the incident rate per 200000 hours is below 2, by 5
    points when it is below 4, and by nothing otherwise; the near-miss
    rate recorded with it never counts. *)
Theorem safety_bonus (now : Z) (pid : option string) (hours : Q)
    (incidents near_misses : Z) (self : SocialImpactTracker.t) :
  ~ hours == 0 ->
  let rate := inject_Z incidents / hours * 200000 in
  let score :=
    ESGScoringEngine._calculate_social_score
      (ESGScoringEngine.metrics_of pid
         (SocialImpactTracker.metrics
            (snd (SocialImpactTracker.track_safety_metrics now pid hours
                    incidents near_misses self)))) in
  (rate < 2 -> score = py_min 100 (social_points pid self + 15))
  /\ (2 <= rate -> rate < 4 -> score = py_min 100 (social_points pid self + 5))
  /\ (4 <= rate -> score = py_min 100 (social_points pid self)).
Proof.
  intros Hh rate score.
  assert (Hs : score
               = py_min 100
                   (if Qltb rate 2 then social_points pid self + 15
                    else if Qltb rate 4 then social_points pid self + 5
                    else social_points pid self)).
  { subst score rate.
    unfold SocialImpactTracker.track_safety_metrics, social_points.
    rewrite !(py_div_ok _ _ Hh).
    unfold bind, lift_result, SocialImpactTracker.extend, modify, ret.
    simpl. rewrite metrics_of_app.
    unfold ESGScoringEngine.metrics_of at 2. simpl.
    rewrite opt_string_eq_refl. simpl.
    rewrite social_score_app. simpl.
    unfold ESGScoringEngine.social_step at 1 2. simpl.
    repeat match goal with
           | |- context [if ?b then _ else _] => destruct b
           end; reflexivity. }
  rewrite Hs. clear Hs score.
  destruct (Qltb rate 2) eqn:E2;
    [apply Qltb_lt in E2 | apply Qltb_ge in E2];
    (destruct (Qltb rate 4) eqn:E4;
      [apply Qltb_lt in E4 | apply Qltb_ge in E4]);
    repeat split; intros; try reflexivity; exfalso; lra.
Qed.

Lemma safety_bonus_witness :
  ESGScoringEngine._calculate_social_score
    (ESGScoringEngine.metrics_of (Some "P1")
       (SocialImpactTracker.metrics
          (snd (SocialImpactTracker.track_safety_metrics 0 (Some "P1") 3000
                  0 1 SocialImpactTracker.init))))
  = py_min 100 (social_points (Some "P1") SocialImpactTracker.init + 15).
Proof.
  assert (Hh : ~ 3000 == 0) by (intros H; discriminate H).
  destruct (safety_bonus 0 (Some "P1") 3000 0 1 SocialImpactTracker.init Hh)
    as (H & _).
  apply H. vm_compute. reflexivity.
Defined.

(** ** The report stays within the cost *)

(** Every incentive of the catalogue has no negative amount, percentage
    or cap. *)
Definition nonneg_catalogue (c : IncentiveCalculationEngine.t) : Prop :=
  List.Forall nonneg_incentive (IncentiveCalculationEngine.federal_incentives c)
  /\ map_Forall (fun _ l => List.Forall nonneg_incentive l)
       (IncentiveCalculationEngine.state_incentives c)
  /\ map_Forall (fun _ l => List.Forall nonneg_incentive l)
       (IncentiveCalculationEngine.local_incentives c)
  /\ map_Forall (fun _ l => List.Forall nonneg_incentive l)
       (IncentiveCalculationEngine.utility_incentives c).

Lemma nonneg_incentive_check (inc : IncentiveOpportunity.t) :
  Qle_bool 0 (IncentiveOpportunity.amount inc) = true ->
  Qle_bool 0 (get (IncentiveOpportunity.percentage inc) 0) = true ->
  Qle_bool 0 (get (IncentiveOpportunity.max_amount inc) 0) = true ->
  nonneg_incentive inc.
Proof.
  intros Ha Hp Hc. apply Qle_bool_iff in Ha, Hp, Hc.
  split; [exact Ha |]. split.
  - intros p E. rewrite E in Hp. exact Hp.
  - intros c E. rewrite E in Hc. exact Hc.
Qed.

(** The catalogue the engine is built with has no negative figure. *)
Lemma shipped_catalogue_nonneg :
  nonneg_catalogue IncentiveCalculationEngine.init.
Proof.
  unfold nonneg_catalogue, IncentiveCalculationEngine.init,
    IncentiveCalculationEngine._load_state_incentives,
    IncentiveCalculationEngine._load_local_incentives,
    IncentiveCalculationEngine._load_utility_incentives.
  cbn [IncentiveCalculationEngine.federal_incentives
       IncentiveCalculationEngine.state_incentives
       IncentiveCalculationEngine.local_incentives
       IncentiveCalculationEngine.utility_incentives].
  rewrite !list_to_map_cons, !list_to_map_nil.
  repeat split;
    repeat first
      [ apply map_Forall_empty
      | apply map_Forall_insert_2
      | apply List.Forall_nil
      | apply List.Forall_cons
      | apply nonneg_incentive_check; reflexivity ].
Qed.

Lemma eligible_among_Forall (P : IncentiveOpportunity.t -> Prop) today pd l :
  List.Forall P l ->
  List.Forall P (IncentiveCalculationEngine.eligible_among today pd l).
Proof.
  intros H. apply List.Forall_forall. intros i Hi.
  apply List.filter_In in Hi. destruct Hi as [Hi _].
  revert i Hi. apply List.Forall_forall. exact H.
Qed.

Lemma eligible_at_Forall (P : IncentiveOpportunity.t -> Prop) today pd
    (table : gmap string (list IncentiveOpportunity.t)) key :
  map_Forall (fun _ l => List.Forall P l) table ->
  List.Forall P (IncentiveCalculationEngine.eligible_at today pd table key).
Proof.
  intros H. unfold IncentiveCalculationEngine.eligible_at.
  destruct (table !! key) as [l |] eqn:E; [| constructor].
  apply eligible_among_Forall. exact (H key l E).
Qed.

Lemma available_from_catalogue (c : IncentiveCalculationEngine.t) today pd l :
  nonneg_catalogue c ->
  IncentiveCalculationEngine.calculate_available_incentives c today pd = Ok l ->
  List.Forall nonneg_incentive l.
Proof.
  intros (Hf & Hs & Hl & Hu).
  unfold IncentiveCalculationEngine.calculate_available_incentives.
  destruct (pd_state pd) as [st |]; [| discriminate].
  intros H. injection H as <-.
  rewrite !List.Forall_app. repeat split;
    first [ apply eligible_among_Forall; assumption
          | apply eligible_at_Forall; assumption ].
Qed.

Lemma Qsum_from_nonneg (l : list Q) (acc : Q) :
  0 <= acc -> List.Forall (fun q => 0 <= q) l -> 0 <= fold_left Qplus l acc.
Proof.
  revert acc. induction l as [| q l IH]; intros acc Ha Hl; simpl.
  - exact Ha.
  - inversion Hl; subst. apply IH; [lra | assumption].
Qed.

Lemma incentive_value_sign (inc : IncentiveOpportunity.t) (cost : Q)
    (size : option Q) :
  nonneg_incentive inc -> 0 <= cost ->
  (forall s, size = Some s -> 0 <= s) ->
  0 <= IncentiveCalculationEngine.calculate_incentive_value inc cost size.
Proof.
  intros (Ha & Hp & Hc) Hcost Hs.
  unfold IncentiveCalculationEngine.calculate_incentive_value,
    IncentiveCalculationEngine.the.
  destruct (IncentiveOpportunity.percentage inc) as [p |] eqn:Ep;
    destruct (IncentiveOpportunity.max_amount inc) as [c |] eqn:Ec;
    destruct size as [s |]; simpl;
    try specialize (Hp _ eq_refl); try specialize (Hc _ eq_refl);
    try specialize (Hs _ eq_refl);
    try assert (Hv : 0 <= cost * Decimal_str (float_truediv p 100))
      by (apply Qmult_le_0_compat;
          [assumption | apply percentage_rate_nonneg; assumption]);
    repeat match goal with
           | |- context [if ?b then _ else _] => destruct b; simpl
           end;
    try lra;
    try (apply py_min_glb; lra);
    try (apply Qmult_le_0_compat; assumption).
Qed.

Lemma report_figures (now : Z) (today : date) (pd : ProjectData)
    (self self' : ESGIncentiveIntegrationEngine.t) (r : Report) :
  ESGIncentiveIntegrationEngine.process_project_esg_incentives now today pd
    self = (Ok r, self') ->
  exists l,
    IncentiveCalculationEngine.calculate_available_incentives
      (ESGIncentiveIntegrationEngine.incentive_calc self) today pd = Ok l
    /\ total_incentive_value r
       = fold_left Qplus
           (List.map
              (fun i =>
                 IncentiveCalculationEngine.calculate_incentive_value i
                   (get (pd_project_cost pd) 0) (pd_project_size pd)) l) 0
    /\ net_project_cost r
       = get (pd_project_cost pd) 0 - total_incentive_value r
    /\ roi_improvement r
       = if Qltb 0 (get (pd_project_cost pd) 0)
         then total_incentive_value r / get (pd_project_cost pd) 0 * 100
         else 0.
Proof.
  unfold ESGIncentiveIntegrationEngine.process_project_esg_incentives.
  unfold bind at 1.
  destruct (ESGIncentiveIntegrationEngine._track_project_metrics now
              (pd_project_id pd) pd self) as [[[] | e] s1] eqn:Et;
    [| discriminate].
  destruct (tracking_effect _ _ _ _ _ Et) as (le & ls & _ & _ & _ & _ & _ & Hc).
  unfold bind, read, lift_result, ret. rewrite Hc.
  destruct (IncentiveCalculationEngine.calculate_available_incentives
              (ESGIncentiveIntegrationEngine.incentive_calc self) today pd)
    as [l | e]; [| discriminate].
  pose proof (summary_fold s1 (get (pd_project_cost pd) 0)
                (pd_project_size pd) l ([], 0)) as Hf.
  cbv zeta in Hf.
  destruct (fold_left _ l ([], 0)) as [summary total].
  destruct Hf as [_ Ht]. simpl in Ht.
  intros H. injection H as <- _. simpl.
  exists l. rewrite Ht. repeat split.
Qed.

(** X26: With a catalogue free of negative figures (as the shipped one is), a
    project cost that is not negative and a project size that is not
    negative, the report never shows a negative total incentive value, a
    net project cost above the project cost, or a negative ROI
    improvement. *)
Theorem report_within_cost (now : Z) (today : date) (pd : ProjectData)
    (self self' : ESGIncentiveIntegrationEngine.t) (r : Report) :
  ESGIncentiveIntegrationEngine.process_project_esg_incentives now today pd
    self = (Ok r, self') ->
  nonneg_catalogue (ESGIncentiveIntegrationEngine.incentive_calc self) ->
  0 <= get (pd_project_cost pd) 0 ->
  (forall s, pd_project_size pd = Some s -> 0 <= s) ->
  0 <= total_incentive_value r
  /\ net_project_cost r <= get (pd_project_cost pd) 0
  /\ 0 <= roi_improvement r.
Proof.
  intros Hrun Hcat Hcost Hsize.
  destruct (report_figures _ _ _ _ _ _ Hrun) as (l & Hl & Ht & Hn & Hr).
  pose proof (available_from_catalogue _ _ _ _ Hcat Hl) as Hpos.
  assert (H0 : 0 <= total_incentive_value r).
  { rewrite Ht. apply Qsum_from_nonneg; [lra |].
    apply List.Forall_map.
    eapply List.Forall_impl; [| exact Hpos].
    intros i Hi. apply incentive_value_sign; assumption. }
  split; [exact H0 |]. split.
  - rewrite Hn. lra.
  - rewrite Hr.
    destruct (Qltb 0 (get (pd_project_cost pd) 0)) eqn:E; [| lra].
    apply Qltb_lt in E.
    assert (0 <= total_incentive_value r / get (pd_project_cost pd) 0)
      by (apply Qle_shift_div_l; lra).
    lra.
Qed.

Lemma report_within_cost_witness :
  match fst (ESGIncentiveIntegrationEngine.process_project_esg_incentives 0
               (mkdate 2026 11 4) storm_project
               ESGIncentiveIntegrationEngine.init) with
  | Ok r => net_project_cost r <= 250000
  | Raise _ => False
  end.
Proof.
  destruct (ESGIncentiveIntegrationEngine.process_project_esg_incentives 0
              (mkdate 2026 11 4) storm_project
              ESGIncentiveIntegrationEngine.init) as [[r | e] s'] eqn:E.
  - simpl.
    destruct (report_within_cost _ _ _ _ _ _ E shipped_catalogue_nonneg)
      as (_ & H & _).
    + simpl. qcmp.
    + intros s Hs. injection Hs as <-. qcmp.
    + exact H.
  - vm_compute in E. discriminate E.
Defined.

(** ** The cap outside the percentage branch *)

(** [incentive.max_amount = m] *)
Definition set_max_amount (m : option Q) (i : IncentiveOpportunity.t)
  : IncentiveOpportunity.t :=
  IncentiveOpportunity.mk
    (IncentiveOpportunity.incentive_id i) (IncentiveOpportunity.name i)
    (IncentiveOpportunity.type i) (IncentiveOpportunity.amount i)
    (IncentiveOpportunity.percentage i) m
    (IncentiveOpportunity.state i) (IncentiveOpportunity.locality i)
    (IncentiveOpportunity.utility_provider i)
    (IncentiveOpportunity.eligibility_criteria i)
    (IncentiveOpportunity.application_deadline i)
    (IncentiveOpportunity.project_start_deadline i)
    (IncentiveOpportunity.project_completion_deadline i)
    (IncentiveOpportunity.requires_pre_approval i)
    (IncentiveOpportunity.stacking_allowed i)
    (IncentiveOpportunity.clawback_provisions i).

(** The Miami-Dade rebate of the catalogue: 1000 per unit, with a
    max_amount of 1000. *)
Definition MIAMI_SOLAR_REBATE_2024 : IncentiveOpportunity.t :=
  IncentiveOpportunity.mk "MIAMI_SOLAR_REBATE_2024" "Miami-Dade Solar Rebate"
    LOCAL_REBATE 1000 None (Some 1000) "FL" (Some "Miami-Dade") None
    ["Miami-Dade County resident"; "Solar PV installation"]
    (Some (mkdate 2024 12 31)) None None true true [].

Lemma MIAMI_SOLAR_REBATE_2024_in_catalogue :
  IncentiveCalculationEngine._load_local_incentives !! "miami_dade_fl"
  = Some [MIAMI_SOLAR_REBATE_2024].
Proof. vm_compute. reflexivity. Qed.

(** X15: For an incentive without a usable percentage, the value is the
    project size times the amount when both are non-zero; it depends
    neither on the project cost nor on max_amount, so the cap is not
    applied and the value can exceed it. *)
Theorem cap_only_for_percentages (inc : IncentiveOpportunity.t)
    (cost cost' : Q) (size : option Q) (cap : option Q) :
  truthy_opt (IncentiveOpportunity.percentage inc) = false ->
  IncentiveCalculationEngine.calculate_incentive_value
    (set_max_amount cap inc) cost' size
  = IncentiveCalculationEngine.calculate_incentive_value inc cost size
  /\ (forall s,
        size = Some s -> ~ s == 0 ->
        ~ IncentiveOpportunity.amount inc == 0 ->
        IncentiveCalculationEngine.calculate_incentive_value inc cost size
        = s * IncentiveOpportunity.amount inc)
  /\ IncentiveCalculationEngine.calculate_incentive_value
       MIAMI_SOLAR_REBATE_2024 25000 (Some 8) == 8000.
Proof.
  intros Hp. split; [| split].
  - unfold IncentiveCalculationEngine.calculate_incentive_value. simpl.
    rewrite Hp. reflexivity.
  - intros s -> Hs Ha.
    unfold IncentiveCalculationEngine.calculate_incentive_value.
    rewrite Hp. simpl.
    rewrite (proj2 (truthy_true _) Hs), (proj2 (truthy_true _) Ha).
    reflexivity.
  - vm_compute. reflexivity.
Qed.

Lemma cap_only_for_percentages_witness :
  IncentiveCalculationEngine.calculate_incentive_value PTC_WIND_2024 100000
    (Some 50)
  = 50 * 28.
Proof.
  destruct (cap_only_for_percentages PTC_WIND_2024 100000 0 (Some 50) None
              eq_refl) as (_ & H & _).
  apply (H 50 eq_refl); intros E; discriminate E.
Defined.

(** The names the catalogue gives to its utility and its locality do not
    normalise to the keys the entries are stored under. *)
Lemma catalogue_names_miss_their_keys (pd : ProjectData) :
  (pd_utility_provider pd = Some "Florida Power & Light" ->
   utility_key pd = "floridapowerlight"
   /\ IncentiveCalculationEngine._load_utility_incentives !! utility_key pd
      = None)
  /\ (pd_city pd = Some "Miami-Dade" ->
      locality_key pd "FL" = "miami-dade_fl"
      /\ IncentiveCalculationEngine._load_local_incentives
         !! locality_key pd "FL" = None).
Proof.
  unfold utility_key, locality_key.
  split; intros ->; split; vm_compute; reflexivity.
Qed.
